(** * GeoSklearnRegression: a shallow embedding of Scripts/GeoSklearnRegression.py

    The script glues three external systems together: the GIS platform
    (arcpy), the numeric stack (numpy, sklearn, joblib) and the operating
    system (os, open).  None of their code lives in the repository, so their
    operations are the fields of one record of externals, [Env]; everything
    the script itself does (control flow, exception handling, report
    formatting, file output) is translated from the source and runs on top
    of it.

    Python effects are modelled by a state-and-exception monad in which the
    state survives a raised exception, as it does in Python: a list that was
    appended to, or a file that was truncated, stays that way when a later
    statement raises. *)

From Stdlib Require Import Floats.PrimFloat.
From stdpp Require Import base strings gmap list pretty.

(** ** Python values and exceptions *)

(** The scalar values that travel through the script's parameters
    ([alpha], [normalize]) and through exception arguments. *)
Inductive pyval :=
| PyNone
| PyBool (b : bool)
| PyInt (z : Z)
| PyFloat (x : float)
| PyStr (s : string).

(** The exception classes the script distinguishes.  [ExecuteError] is
    [arcpy.ExecuteError]; [BaseOnly] stands for the classes that derive from
    [BaseException] but not from [Exception] (KeyboardInterrupt, SystemExit,
    GeneratorExit), which [except Exception] lets through and a bare
    [except:] catches. *)
Inductive exc_class :=
| ExecuteError
| KeyError
| AttributeError
| TypeError
| ValueError
| IndexError
| OSError
| MemoryError
| OtherException (name : string)
| BaseOnly (name : string).

Record exn := Exn { exc_type : exc_class; exc_args : list pyval }.

Definition is_ExecuteError (e : exn) : bool :=
  match exc_type e with ExecuteError => true | _ => false end.

Definition is_Exception (e : exn) : bool :=
  match exc_type e with BaseOnly _ => false | _ => true end.

Inductive outcome (A : Type) :=
| Return (a : A)
| Raise (e : exn).
Arguments Return {A} a.
Arguments Raise {A} e.

Definition raised {A} (o : outcome A) : Prop :=
  match o with Raise _ => True | Return _ => False end.

(** ** The effect monad *)

Definition Py (S A : Type) : Type := S → S * outcome A.

Global Instance Py_ret S : MRet (Py S) := λ A a s, (s, Return a).

Global Instance Py_bind S : MBind (Py S) := λ A B f m s,
  match m s with
  | (s', Return a) => f a s'
  | (s', Raise e) => (s', Raise e)
  end.

Definition raise {S A} (e : exn) : Py S A := λ s, (s, Raise e).

(** A pure external call: it may raise, it leaves the state alone. *)
Definition lift {S A} (o : outcome A) : Py S A := λ s, (s, o).

Definition get_state {S} : Py S S := λ s, (s, Return s).

(** [try: body  except: handler] with a bare [except]: every exception is
    caught, and the handler starts from the state the body left behind. *)
Definition try_except_all {S} (body handler : Py S unit) : Py S unit := λ s,
  match body s with
  | (s', Raise _) => handler s'
  | r => r
  end.

(** [for x in xs: body x]. *)
Fixpoint for_each {S A} (xs : list A) (body : A → Py S unit) : Py S unit :=
  match xs with
  | [] => mret tt
  | x :: xs' => body x;; for_each xs' body
  end.

(** ** Data *)

(** A numpy array: its shape tuple and its cells in row-major order. *)
Record ndarray := NdArray { shape : list nat; data : list float }.

(** [a.shape[0]]: indexing the empty shape tuple of a 0-d array raises. *)
Definition shape0 (a : ndarray) : outcome nat :=
  match shape a with
  | [] => Raise (Exn IndexError [PyStr "tuple index out of range"])
  | n :: _ => Return n
  end.

(** A numpy structured array as arcpy returns it: named columns. *)
Definition sarray : Type := list (string * ndarray).

Definition dtype_names (a : sarray) : list string := a.*1.

(** [a[field]]. *)
Fixpoint sarray_field (a : sarray) (field : string) : outcome ndarray :=
  match a with
  | [] => Raise (Exn ValueError [PyStr ("no field of name " +:+ field)])
  | (n, col) :: a' => if decide (n = field) then Return col else sarray_field a' field
  end.

(** An sklearn estimator object.  [est_class] never changes; [est_params]
    are the constructor parameters [set_params] rewrites; [coef_] and
    [intercept_] are the attributes that exist only once [fit] has run. *)
Record estimator := Estimator {
  est_class : string;
  est_params : gmap string pyval;
  coef_ : option (list float);
  intercept_ : option float
}.

(** A class of a module's namespace, and what else an attribute of a module
    can be, as [get_model] sees it, by a call with no argument: something
    whose call raises (a function with required arguments, a submodule, a
    constant), or a callable that returns an object which is no estimator
    (the bound method [__repr__] returns a text, [__dir__] a list), given
    by the name of that object's class and by its text under [str]. *)
Record pyclass := PyClass { cls_name : string; cls_defaults : gmap string pyval }.

Inductive attr :=
| AClass (c : pyclass)
| AOther (call_error : exn)
| ACallable (class_name text : string).

(** What the variable [regression_model] can hold: an estimator instance,
    or an object of some other class. *)
Inductive pyobject :=
| Instance (m : estimator)
| Other (class_name text : string).

Record pymodule := PyModule { mod_name : string; mod_dict : gmap string attr }.

(** What [arcpy.Describe] exposes of a feature class. *)
Record describe := Describe_ {
  d_OIDFieldName : string;
  d_catalogPath : string;
  d_name : string
}.

(** Directories and regular files, the latter with their text. *)
Record filesystem := FileSystem {
  fs_dirs : gset string;
  fs_files : gmap string string
}.

Section Script.

(** The state of the GIS platform (its tables and message queue). *)
Context {gis : Type}.

(** Everything outside the script: what is printed, logged and stored. *)
Record world := World {
  w_gis : gis;
  w_fs : filesystem;
  w_messages : list string;
  w_stdout : list string
}.

(** ** External collaborators *)

Record Env := {
  (* arcpy *)
  arcpy_Describe : gis → string → outcome describe;
  arcpy_FeatureClassToNumPyArray : gis → string → list string → Z → outcome sarray;
  arcpy_ValidateFieldName : gis → string → string → outcome string;
  arcpy_ExtendTable : gis → string → string → sarray → string → bool → gis * outcome unit;
  arcpy_GetMessages : gis → Z → string;
  (* Python: what the type of modules provides under a name that a module's
     own namespace does not hold, as a call with no argument sees it:
     nothing, a call that raises, or a call that returns an object that is
     no estimator (class name, text) *)
  module_type_attr : pymodule → string → option (outcome (string * string));
  (* os *)
  os_path_dirname : string → string;
  os_path_join : string → string → string;
  os_access_error : filesystem → string → option exn;
  (* numpy and the built-in conversions of numbers *)
  np_view_float64 : sarray → nat → outcome ndarray;
  np_array_records : ndarray → ndarray → string → string → outcome sarray;
  py_round : float → Z → float;
  str_float : float → string;
  str_vector : list float → string;
  str_pairs : list (string * float) → string;
  (* sklearn *)
  sk_str : estimator → string;
  sk_set_params : estimator → string → pyval → outcome (gmap string pyval);
  sk_fit : estimator → ndarray → ndarray → outcome (list float * float);
  sk_predict : estimator → ndarray → outcome ndarray;
  r2_score : ndarray → ndarray → outcome float;
  mean_squared_error : ndarray → ndarray → outcome float;
  mean_absolute_error : ndarray → ndarray → outcome float;
  median_absolute_error : ndarray → ndarray → outcome float;
  f_regression : ndarray → ndarray → outcome (list float * list float);
  joblib_dump : estimator → string → filesystem → filesystem * outcome unit
}.

Context (E : Env).

(** [str(x)] on a scalar. *)
Definition py_str (v : pyval) : string :=
  match v with
  | PyNone => "None"
  | PyBool true => "True"
  | PyBool false => "False"
  | PyInt z => pretty z
  | PyFloat x => str_float E x
  | PyStr s => s
  end.

(** [sep.join(parts)]. *)
Fixpoint str_join (sep : string) (parts : list string) : string :=
  match parts with
  | [] => ""
  | [p] => p
  | p :: rest => p +:+ sep +:+ str_join sep rest
  end.

(** [print(s)]. *)
Definition print (s : string) : Py world unit := λ w,
  (World (w_gis w) (w_fs w) (w_messages w) (w_stdout w ++ [s]), Return tt).

(** ** glearnlib *)

(** Modelled from the spec: [glearnlib.arc_print] is not among the sources.
    The spec only says that what is passed to it is logged or reported as a
    message to the host, so it appends the text to the host's message log;
    the progressor flag changes nothing that the spec observes. *)
Definition arc_print (s : string) (progressor_bool : bool) : Py world unit := λ w,
  (World (w_gis w) (w_fs w) (w_messages w ++ [s]) (w_stdout w), Return tt).

(** Modelled from the spec: the decorator [glearnlib.arc_tool_report] is not
    among the sources.  The spec describes [get_model] and
    [regression_summary] by their bodies alone (they return their result or
    raise), so the decorator hands the function back unchanged. *)
Definition arc_tool_report {F : Type} (function : F) : F := function.

(** ** get_model *)

(** [globals()[module]]. *)
Definition globals_getitem (globals : gmap string pymodule) (module : string)
  : outcome pymodule :=
  match globals !! module with
  | Some m => Return m
  | None => Raise (Exn KeyError [PyStr module])
  end.

(** [getattr(module_dict, name)]: the module's namespace first, then what
    the type of modules provides (its methods; the two names that the type
    answers before the namespace, [__class__] and [__dict__], are names of
    no namespace); the lookup fails when neither has the name. *)
Definition getattr (module_dict : pymodule) (name : string) : outcome attr :=
  match mod_dict module_dict !! name with
  | Some a => Return a
  | None =>
      match module_type_attr E module_dict name with
      | Some (Return (class_name, text)) => Return (ACallable class_name text)
      | Some (Raise e) => Return (AOther e)
      | None => Raise (Exn AttributeError
          [PyStr ("module '" +:+ mod_name module_dict +:+ "' has no attribute '"
                  +:+ name +:+ "'")])
      end
  end.

(** [cls()]: a class builds an unfitted instance holding its defaults; any
    other attribute raises or returns its object. *)
Definition call (a : attr) : outcome pyobject :=
  match a with
  | AClass c => Return (Instance (Estimator (cls_name c) (cls_defaults c) None None))
  | AOther e => Raise e
  | ACallable class_name text => Return (Other class_name text)
  end.

(** The AttributeError of a method call on an object that has no such
    method. *)
Definition no_attribute (class_name method : string) : exn :=
  Exn AttributeError
    [PyStr ("'" +:+ class_name +:+ "' object has no attribute '" +:+ method +:+ "'")].

(** [str(regression_model)]. *)
Definition str_object (o : pyobject) : string :=
  match o with
  | Instance m => sk_str E m
  | Other _ text => text
  end.

(** [model.set_params(key=value)]: the object keeps its identity and class;
    when the library accepts the key its parameters are rewritten, when it
    raises nothing has been assigned. *)
Definition set_params (m : estimator) (key : string) (value : pyval) : outcome estimator :=
  match sk_set_params E m key value with
  | Return ps => Return (Estimator (est_class m) ps (coef_ m) (intercept_ m))
  | Raise e => Raise e
  end.

(** The statement [regression_model.set_params(key=value)] inside
    [get_model], whose frame holds the local variable [regression_model]
    next to the world. *)
Definition set_params_stmt (key : string) (value : pyval) : Py (pyobject * world) unit :=
  λ '(o, w),
  match o with
  | Instance m =>
      match set_params m key value with
      | Return m' => ((Instance m', w), Return tt)
      | Raise e => ((o, w), Raise e)
      end
  | Other class_name _ => ((o, w), Raise (no_attribute class_name "set_params"))
  end.

(** A statement that only touches the world, run in a frame with a local. *)
Definition on_world {L A} (c : Py world A) : Py (L * world) A := λ '(l, w),
  let '(w', r) := c w in ((l, w'), r).

(** Run statements on a local variable and hand its final value back. *)
Definition with_local {L} (l : L) (c : Py (L * world) unit) : Py world L := λ w,
  match c (l, w) with
  | ((l', w'), Return _) => (w', Return l')
  | ((_, w'), Raise e) => (w', Raise e)
  end.

Definition get_model_body (globals : gmap string pymodule)
    (regression_type module : string) (alpha normalize : pyval) : Py world pyobject :=
  module_dict ← lift (globals_getitem globals module);
  arc_print ("Using input feature class and selected variables to establish "
             +:+ regression_type +:+ " Regression Model.") true;;
  cls ← lift (getattr module_dict regression_type);
  regression_model ← lift (call cls);
  with_local regression_model (
    try_except_all (set_params_stmt "alpha" alpha)
                   (on_world (print "Did not set alpha in model..."));;
    try_except_all (set_params_stmt "normalize" normalize)
                   (on_world (print "Did not set normalize in model..."))).

Definition get_model := arc_tool_report get_model_body.

(** ** regression_summary *)

(** [model_evaluation_list.append(line)]: the frame is the list itself. *)
Definition list_append (line : string) : Py (list string) unit := λ l,
  (l ++ [line], Return tt).

(** [regression_model.coef_] and [regression_model.intercept_]. *)
Definition getattr_coef_ (m : estimator) : outcome (list float) :=
  match coef_ m with
  | Some c => Return c
  | None => Raise (Exn AttributeError
      [PyStr ("'" +:+ est_class m +:+ "' object has no attribute 'coef_'")])
  end.

Definition getattr_intercept_ (m : estimator) : outcome float :=
  match intercept_ m with
  | Some c => Return c
  | None => Raise (Exn AttributeError
      [PyStr ("'" +:+ est_class m +:+ "' object has no attribute 'intercept_'")])
  end.

(** ["{0} * {1}".format(round(coef, 3), name)]. *)
Definition coef_term (cn : float * string) : string :=
  str_float E (py_round E cn.1 3) +:+ " * " +:+ cn.2.

(** The optional block of lines 102 to 112, the body of the [try]. *)
Definition regressor_scores (dependent_array : ndarray) (regressor_names : list string)
    (independents_array : ndarray) : Py (list string) unit :=
  rows_x ← lift (shape0 independents_array);
  rows_y ← lift (shape0 dependent_array);
  if decide (rows_x = rows_y) then
    list_append "REGRESSOR SCORES";;
    scores ← lift (f_regression E independents_array dependent_array);
    let '(f_regression_scores, p_values) := scores in
    if decide (length regressor_names = length p_values) then
      list_append ("  Regressor F-Scores:     "
                   +:+ str_pairs E (zip regressor_names f_regression_scores));;
      list_append ("  Regressor P-Values:     "
                   +:+ str_pairs E (zip regressor_names p_values))
    else
      list_append ("  Regressor F-Scores:     " +:+ str_vector E f_regression_scores);;
      list_append ("  Regressor P-Values:     " +:+ str_vector E p_values)
  else mret tt.

Definition regression_summary_frame (regression_model : estimator)
    (dependent_array predicted_values : ndarray) (regressor_names : list string)
    (independents_array : ndarray) : Py (list string) (list string) :=
  list_append ("REGRESSION MODEL: " +:+ sk_str E regression_model);;
  list_append "MODEL COEFFICENTS";;
  coefs ← lift (getattr_coef_ regression_model);
  (if decide (length regressor_names = length coefs) then
     list_append ("  Regression Coefficents:  "
                  +:+ str_join " + " (coef_term <$> zip coefs regressor_names))
   else
     list_append ("  Regression Coefficents:  " +:+ str_vector E coefs));;
  intercept ← lift (getattr_intercept_ regression_model);
  list_append ("  Regression Intercept:    " +:+ str_float E intercept);;
  list_append "MODEL EVALUATION";;
  r2 ← lift (r2_score E dependent_array predicted_values);
  list_append ("  Model Coefficent of Determination: " +:+ str_float E r2);;
  mse ← lift (mean_squared_error E dependent_array predicted_values);
  list_append ("  Model Mean Squared Error:          " +:+ str_float E mse);;
  mae ← lift (mean_absolute_error E dependent_array predicted_values);
  list_append ("  Model Mean Absolute Error:         " +:+ str_float E mae);;
  medae ← lift (median_absolute_error E dependent_array predicted_values);
  list_append ("  Model Median Absolute Error:       " +:+ str_float E medae);;
  try_except_all (regressor_scores dependent_array regressor_names independents_array)
                 (mret tt);;
  get_state.

(** The function starts from [model_evaluation_list = []] and has no effect
    outside its own frame. *)
Definition regression_summary_body (regression_model : estimator)
    (dependent_array predicted_values : ndarray) (regressor_names : list string)
    (independents_array : ndarray) : outcome (list string) :=
  (regression_summary_frame regression_model dependent_array predicted_values
     regressor_names independents_array []).2.

Definition regression_summary := arc_tool_report regression_summary_body.

(** ** feature_class_sklearn_regression *)

(** A call into arcpy that reads the platform's state. *)
Definition arcpy_read {A} (f : gis → outcome A) : Py world A := λ w, (w, f (w_gis w)).

(** [arcpy.da.ExtendTable(...)], which rewrites the table. *)
Definition ExtendTable (in_table table_match_field : string) (in_array : sarray)
    (array_match_field : string) (append_only : bool) : Py world unit := λ w,
  let '(g, r) := arcpy_ExtendTable E (w_gis w) in_table table_match_field in_array
                   array_match_field append_only in
  (World g (w_fs w) (w_messages w) (w_stdout w), r).

(** [regression_model.fit(X, y)]: the object gains its fitted attributes. *)
Definition fit (m : estimator) (X y : ndarray) : outcome estimator :=
  match sk_fit E m X y with
  | Return (c, i) => Return (Estimator (est_class m) (est_params m) (Some c) (Some i))
  | Raise e => Raise e
  end.

(** [regression_model.fit(X, y)] on whatever [get_model] returned. *)
Definition fit_object (o : pyobject) (X y : ndarray) : outcome estimator :=
  match o with
  | Instance m => fit m X y
  | Other class_name _ => Raise (no_attribute class_name "fit")
  end.

Definition none_path_error : exn :=
  Exn TypeError [PyStr "stat: path should be string, bytes, os.PathLike or integer, not NoneType"].

(** [os.path.isdir(path)]: [os.stat] rejects [None] with a TypeError, which
    [isdir] does not catch (it only catches OSError); a string names a
    directory or it does not.  The wording of the TypeError is CPython 3's
    on POSIX; Python 2.7 and Windows word it differently and raise it all
    the same. *)
Definition os_path_isdir (path : option string) : Py world bool := λ w,
  match path with
  | None => (w, Raise none_path_error)
  | Some p => (w, Return (bool_decide (p ∈ fs_dirs (w_fs w))))
  end.

(** [os.path.join(path, name)]. *)
Definition path_join (path : option string) (name : string) : outcome string :=
  match path with
  | None => Raise (Exn TypeError
      [PyStr "expected str, bytes or os.PathLike object, not NoneType"])
  | Some p => Return (os_path_join E p name)
  end.

Definition os_path_exists (p : string) : Py world bool := λ w,
  (w, Return (bool_decide (p ∈ fs_dirs (w_fs w) ∨ is_Some (fs_files (w_fs w) !! p)))).

Definition set_fs (w : world) (fs : filesystem) : world :=
  World (w_gis w) fs (w_messages w) (w_stdout w).

(** [open(p, "w")]: the file is created, or cut to length zero when it
    exists.  The handle is the path. *)
Definition open_w (p : string) : Py world string := λ w,
  match os_access_error E (w_fs w) p with
  | Some e => (w, Raise e)
  | None =>
      if decide (p ∈ fs_dirs (w_fs w)) then
        (w, Raise (Exn OSError [PyInt 21; PyStr "Is a directory"]))
      else
        (set_fs w (FileSystem (fs_dirs (w_fs w)) (<[p := ""]> (fs_files (w_fs w)))),
         Return p)
  end.

(** [os.remove(p)]. *)
Definition os_remove (p : string) : Py world unit := λ w,
  match os_access_error E (w_fs w) p with
  | Some e => (w, Raise e)
  | None =>
      match fs_files (w_fs w) !! p with
      | Some _ => (set_fs w (FileSystem (fs_dirs (w_fs w)) (delete p (fs_files (w_fs w)))),
                   Return tt)
      | None =>
          if decide (p ∈ fs_dirs (w_fs w))
          then (w, Raise (Exn OSError [PyInt 13; PyStr "Permission denied"]))
          else (w, Raise (Exn OSError [PyInt 2; PyStr "No such file or directory"]))
      end
  end.

Definition newline : string := String (Ascii.ascii_of_nat 10) EmptyString.

(** [handle.write(s)]: the text is added at the end of the file. *)
Definition file_write (handle : string) (s : string) : Py world unit := λ w,
  (set_fs w (FileSystem (fs_dirs (w_fs w))
               (<[handle := default "" (fs_files (w_fs w) !! handle) +:+ s]>
                  (fs_files (w_fs w)))),
   Return tt).

(** [joblib.dump(model, path)]. *)
Definition dump (m : estimator) (p : string) : Py world unit := λ w,
  let '(fs, r) := joblib_dump E m p (w_fs w) in (set_fs w fs, r).

(** [e.args[0]]. *)
Definition args_0 (e : exn) : outcome pyval :=
  match exc_args e with
  | [] => Raise (Exn IndexError [PyStr "tuple index out of range"])
  | a :: _ => Return a
  end.

(** [try: body  except arcpy.ExecuteError: h1  except Exception as e: h2 e].
    An exception of neither class, and one raised by a handler, leaves the
    statement. *)
Definition try_except_ExecuteError_Exception (body h1 : Py world unit)
    (h2 : exn → Py world unit) : Py world unit := λ w,
  match body w with
  | (w', Raise e) =>
      if is_ExecuteError e then h1 w'
      else if is_Exception e then h2 e w'
      else (w', Raise e)
  | r => r
  end.

(** Lines 159 to 168: taken when the directory is valid, it leaves
    [text_report] bound to the open report file. *)
Definition open_outputs (regression_model : estimator) (regression_model_type : string)
    (output_dir : option string) : Py world string :=
  arc_print "Outputing Report and Pickled model to valid directory." true;;
  let report_name := regression_model_type +:+ "_Report.txt" in
  report_path ← lift (path_join output_dir report_name);
  text_report ← open_w report_path;
  let model_name := regression_model_type +:+ "_Model.pkl" in
  model_path ← lift (path_join output_dir model_name);
  model_exists ← os_path_exists model_path;
  (if model_exists : bool then os_remove model_path else mret tt);;
  dump regression_model model_path;;
  mret text_report.

(** Lines 127 to 157: read the table, build and fit the model, join the
    predictions onto the table and build the report.  Of the script's
    globals only [linear_model] is looked up by name here; the other
    modules the script imports ([metrics], [feature_selection], [joblib],
    [np], [arcpy], [os]) are taken as loaded, their functions being the
    fields of [E]. *)
Definition fit_and_join (globals : gmap string pymodule)
    (in_fc regression_model_type dependent_var : string) (independent_vars : list string)
    (alpha normalize : pyval) : Py world (estimator * list string) :=
  desc ← arcpy_read (λ g, arcpy_Describe E g in_fc);
  let OIDFieldName := d_OIDFieldName desc in
  let workspace := os_path_dirname E (d_catalogPath desc) in
  let objectid := "OID@" in
  arc_print ("Converting '" +:+ d_name desc +:+ "' feature class fields to numpy arrays.")
            false;;
  dependent_geoarray ← arcpy_read (λ g,
    arcpy_FeatureClassToNumPyArray E g in_fc [objectid; dependent_var] 0);
  dependent_array ← lift (sarray_field dependent_geoarray dependent_var);
  oid_array ← lift (sarray_field dependent_geoarray objectid);
  independent_geoarray ← arcpy_read (λ g,
    arcpy_FeatureClassToNumPyArray E g in_fc independent_vars 0);
  independent_array ← lift (np_view_float64 E independent_geoarray
                              (length (dtype_names independent_geoarray)));
  regression_model ← get_model globals regression_model_type "linear_model" alpha normalize;
  arc_print ("Fitting " +:+ str_object regression_model +:+ " model to data.") true;;
  regression_model ← lift (fit_object regression_model independent_array dependent_array);
  predicted_values ← lift (sk_predict E regression_model independent_array);
  JoinField ← arcpy_read (λ g, arcpy_ValidateFieldName E g "NPIndexJoin" workspace);
  PredictedField ← arcpy_read (λ g, arcpy_ValidateFieldName E g "PredictedValues" workspace);
  final_predicted_array ← lift (np_array_records E oid_array predicted_values
                                  JoinField PredictedField);
  arc_print "Extending Prediction Fields to Output Feature Class." true;;
  ExtendTable in_fc OIDFieldName final_predicted_array JoinField false;;
  regession_report ← lift (regression_summary regression_model dependent_array
                             predicted_values independent_vars independent_array);
  mret (regression_model, regession_report).

(** Lines 169 to 172: every report line is logged, and written to the
    report file when there is one. *)
Definition emit_report (regession_report : list string) (text_report : option string)
  : Py world unit :=
  for_each regession_report (λ report,
    arc_print report false;;
    match text_report with
    | Some handle => file_write handle (report +:+ newline)
    | None => mret tt
    end).

(** Lines 126 to 175, the body of the [try]. *)
Definition feature_class_sklearn_regression_try (globals : gmap string pymodule)
    (in_fc regression_model_type dependent_var : string) (independent_vars : list string)
    (alpha normalize : pyval) (output_dir : option string) : Py world unit :=
  fitted ← fit_and_join globals in_fc regression_model_type dependent_var independent_vars
             alpha normalize;
  let '(regression_model, regession_report) := fitted in
  valid_output_file_directory ← os_path_isdir output_dir;
  text_report ← (if valid_output_file_directory : bool
                 then handle ← open_outputs regression_model regression_model_type
                                         output_dir;
                      mret (Some handle)
                 else mret None);
  emit_report regession_report text_report;;
  arc_print "Script Completed Successfully." true.

Definition feature_class_sklearn_regression (globals : gmap string pymodule)
    (in_fc regression_model_type dependent_var : string) (independent_vars : list string)
    (alpha normalize : pyval) (output_dir : option string) : Py world unit :=
  try_except_ExecuteError_Exception
    (feature_class_sklearn_regression_try globals in_fc regression_model_type dependent_var
       independent_vars alpha normalize output_dir)
    (λ w, arc_print (arcpy_GetMessages E (w_gis w) 2) false w)
    (λ e, a ← lift (args_0 e); arc_print (py_str a) false).


(** A computation that never writes to the filesystem, and one that never
    returns normally. *)
Definition keeps_fs {A} (c : Py world A) : Prop := ∀ w, w_fs (c w).1 = w_fs w.

Definition never_returns {A} (c : Py world A) : Prop := ∀ w, raised (c w).2.

End Script.

Arguments world : clear implicits.
Arguments Env : clear implicits.

(** ** A test environment

    Stand-ins for the external collaborators, small enough to run: one table
    whose dependent column equals its single independent column, a module
    namespace with two estimator classes and one function, a disk that can be
    full and a user who can interrupt the fit.  They serve to execute the
    script on concrete inputs. *)
Module Demo.

(** The platform's state: the fields that have been joined onto the table. *)
Definition gis : Type := list string.

Definition column (xs : list float) : ndarray := NdArray [length xs] xs.

Definition table : sarray :=
  [ ("OID@", column [1; 2; 3; 4]%float);
    ("y", column [1; 2; 3; 4]%float);
    ("x", column [1; 2; 3; 4]%float) ].

Fixpoint select_fields (fields : list string) : outcome sarray :=
  match fields with
  | [] => Return []
  | f :: fields' =>
      match sarray_field table f, select_fields fields' with
      | Return col, Return cols => Return ((f, col) :: cols)
      | Raise _, _ => Raise (Exn (OtherException "RuntimeError")
                               [PyStr "A column was specified that does not exist."])
      | _, Raise e => Raise e
      end
  end.

(** The feature class "parcels" is the table above; "huge" exists but does
    not fit in memory, and numpy raises a MemoryError that carries no
    argument; nothing else exists. *)
Definition Describe (g : gis) (in_fc : string) : outcome describe :=
  if decide (in_fc = "parcels" ∨ in_fc = "huge")
  then Return (Describe_ "OBJECTID" ("C:/data/demo.gdb/" +:+ in_fc) in_fc)
  else Raise (Exn OSError [PyStr (in_fc +:+ " does not exist")]).

Definition FeatureClassToNumPyArray (g : gis) (in_fc : string) (fields : list string)
    (null_value : Z) : outcome sarray :=
  if decide (in_fc = "huge") then Raise (Exn MemoryError []) else select_fields fields.

Definition view_float64 (a : sarray) (k : nat) : outcome ndarray :=
  match a with
  | [] => Raise (Exn ValueError [PyStr "new type not compatible with array."])
  | (_, col) :: _ => Return (NdArray [length (data col); k] (mjoin (data <$> a.*2)))
  end.

Definition show_float (x : float) : string :=
  if PrimFloat.eqb x 0 then "0.0"
  else if PrimFloat.eqb x 1 then "1.0"
  else if PrimFloat.eqb x 2.5 then "2.5"
  else if PrimFloat.eqb x 2 then "2.0"
  else if PrimFloat.eqb x (-0.5) then "-0.5"
  else "nan".

(** [round(x, 3)] on the values that occur in the test runs: 2.00048828125
    is the one that has more than three decimals. *)
Definition round_3 (x : float) (ndigits : Z) : float :=
  if PrimFloat.eqb x 2.00048828125 then 2%float else x.

(** What the type of modules provides: [__repr__] and [__dir__] return a
    text and a list, [__init__] needs the module's name. *)
Definition module_type (md : pymodule) (name : string) : option (outcome (string * string)) :=
  if decide (name = "__repr__") then Some (Return ("str", "<module '" +:+ mod_name md +:+ "'>"))
  else if decide (name = "__dir__") then Some (Return ("list", "['LinearRegression', 'Ridge']"))
  else if decide (name = "__init__")
  then Some (Raise (Exn TypeError [PyStr "module.__init__() missing required argument 'name'"]))
  else None.

Definition show_vector (xs : list float) : string :=
  "[" +:+ String.concat " " (show_float <$> xs) +:+ "]".

Definition show_pairs (ps : list (string * float)) : string :=
  "[" +:+ String.concat ", " ((λ p, "('" +:+ p.1 +:+ "', " +:+ show_float p.2 +:+ ")") <$> ps)
  +:+ "]".

(** BaseEstimator.set_params: a key that is not a constructor parameter is
    refused with a ValueError before anything is assigned. *)
Definition base_set_params (m : estimator) (key : string) (value : pyval)
  : outcome (gmap string pyval) :=
  match est_params m !! key with
  | Some _ => Return (<[key := value]> (est_params m))
  | None => Raise (Exn ValueError
      [PyStr ("Invalid parameter " +:+ key +:+ " for estimator " +:+ est_class m)])
  end.

Definition expects_2d {A} (X : ndarray) (r : nat → nat → A) : outcome A :=
  match shape X with
  | [n; k] => Return (r n k)
  | _ => Raise (Exn ValueError [PyStr "Expected 2D array, got 1D array instead"])
  end.

Definition fit_line (interrupted : bool) (m : estimator) (X y : ndarray)
  : outcome (list float * float) :=
  if interrupted then Raise (Exn (BaseOnly "KeyboardInterrupt") [])
  else expects_2d X (λ n k, (replicate k 1%float, 0%float)).

Definition predict_line (m : estimator) (X : ndarray) : outcome ndarray :=
  expects_2d X (λ n k, NdArray [n] (take n (data X))).

Definition metric (perfect : float) (y_true y_pred : ndarray) : outcome float :=
  if decide (shape y_true = shape y_pred) then Return perfect
  else Raise (Exn ValueError
         [PyStr "Found input variables with inconsistent numbers of samples"]).

Definition f_test (X y : ndarray) : outcome (list float * list float) :=
  expects_2d X (λ n k, (replicate k 1%float, replicate k 0%float)).

Definition pickle (disk_full : bool) (m : estimator) (path : string)
    (fs : filesystem) : filesystem * outcome unit :=
  if disk_full
  then (fs, Raise (Exn OSError [PyInt 28; PyStr "No space left on device"]))
  else (FileSystem (fs_dirs fs) (<[path := "pickle:" +:+ est_class m]> (fs_files fs)),
        Return tt).

Definition env (disk_full interrupted : bool) : Env gis := {|
  arcpy_Describe := Describe;
  arcpy_FeatureClassToNumPyArray := FeatureClassToNumPyArray;
  arcpy_ValidateFieldName := λ g name workspace, Return name;
  arcpy_ExtendTable := λ g in_table table_match_field in_array array_match_field append_only,
    (g ++ dtype_names in_array, Return tt);
  arcpy_GetMessages := λ g severity, "ERROR 999999: Error executing function.";
  module_type_attr := module_type;
  os_path_dirname := λ p, "C:/data/demo.gdb";
  os_path_join := λ dir name, dir +:+ "/" +:+ name;
  os_access_error := λ fs p, None;
  np_view_float64 := view_float64;
  np_array_records := λ oids values join_field predicted_field,
    Return [(join_field, oids); (predicted_field, values)];
  py_round := round_3;
  str_float := show_float;
  str_vector := show_vector;
  str_pairs := show_pairs;
  sk_str := λ m, est_class m +:+ "()";
  sk_set_params := base_set_params;
  sk_fit := fit_line interrupted;
  sk_predict := predict_line;
  r2_score := metric 1;
  mean_squared_error := metric 0;
  mean_absolute_error := metric 0;
  median_absolute_error := metric 0;
  f_regression := f_test;
  joblib_dump := pickle disk_full
|}.

Definition LinearRegression : pyclass :=
  PyClass "LinearRegression"
    (<["fit_intercept" := PyBool true]> (<["normalize" := PyBool false]>
     (<["copy_X" := PyBool true]> (<["n_jobs" := PyInt 1]> ∅)))).

Definition Ridge : pyclass :=
  PyClass "Ridge"
    (<["alpha" := PyFloat 1]> (<["fit_intercept" := PyBool true]>
     (<["normalize" := PyBool false]> (<["copy_X" := PyBool true]> ∅)))).

Definition linear_model : pymodule :=
  PyModule "sklearn.linear_model"
    (<["LinearRegression" := AClass LinearRegression]> (<["Ridge" := AClass Ridge]>
     (<["lars_path" := AOther (Exn TypeError
          [PyStr "lars_path() missing 2 required positional arguments: 'X' and 'y'"])]> ∅))).

Definition globals : gmap string pymodule := <["linear_model" := linear_model]> ∅.

Definition fs0 : filesystem :=
  FileSystem {["C:/out"]} (<["C:/out/LinearRegression_Report.txt" := "an older report"]> ∅).

Definition w0 : world gis := World [] fs0 [] [].

(** What a run on "parcels" with LinearRegression fits and reports. *)
Definition fitted : estimator :=
  Estimator "LinearRegression" (cls_defaults LinearRegression) (Some [1%float]) (Some 0%float).

Definition unfitted : estimator :=
  Estimator "LinearRegression" (cls_defaults LinearRegression) None None.

Definition report : list string :=
  [ "REGRESSION MODEL: LinearRegression()";
    "MODEL COEFFICENTS";
    "  Regression Coefficents:  1.0 * x";
    "  Regression Intercept:    0.0";
    "MODEL EVALUATION";
    "  Model Coefficent of Determination: 1.0";
    "  Model Mean Squared Error:          0.0";
    "  Model Mean Absolute Error:         0.0";
    "  Model Median Absolute Error:       0.0";
    "REGRESSOR SCORES";
    "  Regressor F-Scores:     [('x', 1.0)]";
    "  Regressor P-Values:     [('x', 0.0)]" ].

Definition y : ndarray := column [1; 2; 3; 4]%float.

Definition X : ndarray := NdArray [4; 1] [1; 2; 3; 4]%float.

(** A model fitted on two columns, with a coefficient that has more than
    three decimals and a negative one. *)
Definition fitted_two : estimator :=
  Estimator "Ridge" (cls_defaults Ridge) (Some [2.00048828125; -0.5]%float) (Some 2.5%float).

Definition X_two : ndarray := NdArray [4; 2] [1; 0; 2; 1; 3; 0; 4; 1]%float.

End Demo.

(** ** The rest of the script: loading and the command-line entry *)

Section Entry.

Context {gis : Type} (E : Env gis).

(** [arcpy.AddError(s)]: the text joins the host's messages. *)
Definition AddError (s : string) : Py (world gis) unit := λ w,
  (World (w_gis w) (w_fs w) (w_messages w ++ [s]) (w_stdout w), Return tt).

(** The statement [from package import name] at module level, whose frame
    holds the module's globals next to the world.  Whether the package can
    be found is the installation's business: [import_from] is external. *)
Definition import_stmt (import_from : string → string → outcome pymodule)
    (package name : string) : Py (gmap string pymodule * world gis) unit := λ '(g, w),
  match import_from package name with
  | Return m => ((<[name := m]> g, w), Return tt)
  | Raise e => ((g, w), Raise e)
  end.

(** Lines 33 to 41: the guarded imports of sklearn. *)
Definition load_sklearn (import_from : string → string → outcome pymodule)
  : Py (gmap string pymodule * world gis) unit :=
  try_except_all
    (import_stmt import_from "sklearn" "linear_model";;
     import_stmt import_from "sklearn" "metrics";;
     import_stmt import_from "sklearn" "feature_selection";;
     import_stmt import_from "sklearn.externals" "joblib";;
     import_stmt import_from "sklearn.preprocessing" "StandardScaler")
    (on_world (AddError
       ("This library requires Sci-kit Learn installed in the ArcGIS Python Install."
        +:+ " Might require installing pre-requisite libraries and software."))).

(** The message of lines 40 and 41. *)
Definition sklearn_missing : string :=
  "This library requires Sci-kit Learn installed in the ArcGIS Python Install."
  +:+ " Might require installing pre-requisite libraries and software.".

(** The names the block imports, in the order of the source. *)
Definition sklearn_imports : list (string * string) :=
  [ ("sklearn", "linear_model");
    ("sklearn", "metrics");
    ("sklearn", "feature_selection");
    ("sklearn.externals", "joblib");
    ("sklearn.preprocessing", "StandardScaler") ].

(** [s.split(sep)] for a separator of one character: the text is scanned
    once, [piece] being what has been read since the last separator. *)
Fixpoint split_from (sep : Ascii.ascii) (piece s : string) : list string :=
  match s with
  | EmptyString => [piece]
  | String c rest =>
      if decide (c = sep) then piece :: split_from sep "" rest
      else split_from sep (piece +:+ String c "") rest
  end.

Definition split (sep : Ascii.ascii) (s : string) : list string := split_from sep "" s.

(** The number of times a character occurs in a text. *)
Fixpoint occurrences (c : Ascii.ascii) (s : string) : nat :=
  match s with
  | EmptyString => 0
  | String c' rest => (if decide (c' = c) then 1 else 0) + occurrences c rest
  end.

(** The character [;]. *)
Definition semicolon : Ascii.ascii := Ascii.ascii_of_nat 59.

(** The parameters of one run of the script tool. *)
Record tool_parameters := {
  GetParameterAsText : nat → string;
  GetParameter : nat → pyval
}.

(** Lines 188 to 199, the body of [if __name__ == '__main__']. *)
Definition main (T : tool_parameters) (globals : gmap string pymodule)
  : Py (world gis) unit :=
  let input_feature_class := GetParameterAsText T 0 in
  let regression_model_choice := GetParameterAsText T 1 in
  let dependent_var := GetParameterAsText T 2 in
  let independent_vars := split semicolon (GetParameterAsText T 3) in
  let alpha := GetParameter T 4 in
  let normalize := GetParameter T 5 in
  let output_text_report := GetParameterAsText T 6 in
  feature_class_sklearn_regression E globals input_feature_class regression_model_choice
    dependent_var independent_vars alpha normalize (Some output_text_report).

(** A computation that leaves the platform's state alone, and one that
    raises with the platform's state as it found it. *)
Definition keeps_gis {A} (c : Py (world gis) A) : Prop := ∀ w, w_gis (c w).1 = w_gis w.

Definition raises_keeping_gis {A} (c : Py (world gis) A) : Prop :=
  ∀ w, raised (c w).2 ∧ w_gis (c w).1 = w_gis w.

End Entry.

(** The parameters of a run of the tool on the test table, with the output
    parameter left blank. *)
Module DemoTool.

Definition parameters : tool_parameters := {|
  GetParameterAsText := λ k,
    match k with
    | 0 => "parcels"
    | 1 => "LinearRegression"
    | 2 => "y"
    | 3 => "x"
    | _ => ""
    end;
  GetParameter := λ k,
    match k with
    | 4 => PyFloat 1
    | _ => PyBool false
    end
|}.

(** What [from package import name] finds in an installation that has
    sklearn but no [sklearn.externals.joblib]. *)
Definition import_from (package name : string) : outcome pymodule :=
  if decide (name = "linear_model") then Return Demo.linear_model
  else if decide (name = "joblib")
  then Raise (Exn (OtherException "ImportError")
                [PyStr "cannot import name 'joblib' from 'sklearn.externals'"])
  else Return (PyModule (package +:+ "." +:+ name) ∅).

(** An installation without sklearn. *)
Definition no_sklearn (package name : string) : outcome pymodule :=
  Raise (Exn (OtherException "ImportError") [PyStr ("No module named " +:+ package)]).

End DemoTool.

(** * Properties *)

Section Properties.

Context {gis : Type} (E : Env gis).

Implicit Types (w : world gis) (m : estimator) (globals : gmap string pymodule).

(** ** The monad *)

Lemma bind_Return {S A B} (c : Py S A) (k : A → Py S B) s s' a :
  c s = (s', Return a) → (c ≫= k) s = k a s'.
Proof. intros H. unfold mbind, Py_bind. by rewrite H. Qed.

Lemma bind_Raise {S A B} (c : Py S A) (k : A → Py S B) s s' e :
  c s = (s', Raise e) → (c ≫= k) s = (s', Raise e).
Proof. intros H. unfold mbind, Py_bind. by rewrite H. Qed.

Lemma bind_Return_inv {S A B} (c : Py S A) (k : A → Py S B) s s' b :
  (c ≫= k) s = (s', Return b) → ∃ a s1, c s = (s1, Return a) ∧ k a s1 = (s', Return b).
Proof.
  unfold mbind, Py_bind. destruct (c s) as [s1 [a|e]]; [eauto | done].
Qed.

Lemma keeps_fs_ret {A} (a : A) : @keeps_fs gis A (mret a).
Proof. by intros w. Qed.

Lemma keeps_fs_lift {A} (o : outcome A) : @keeps_fs gis A (lift o).
Proof. by intros w. Qed.

Lemma keeps_fs_bind {A B} (c : Py (world gis) A) (k : A → Py (world gis) B) :
  keeps_fs c → (∀ a, keeps_fs (k a)) → keeps_fs (c ≫= k).
Proof.
  intros Hc Hk w. unfold mbind, Py_bind. specialize (Hc w).
  destruct (c w) as [w1 [a|e]]; simpl in *; [|done].
  by rewrite Hk.
Qed.

Lemma keeps_fs_arcpy_read {A} (f : gis → outcome A) : keeps_fs (arcpy_read f).
Proof. by intros w. Qed.

Lemma keeps_fs_arc_print s b : @keeps_fs gis _ (arc_print s b).
Proof. by intros w. Qed.

Lemma keeps_fs_print s : @keeps_fs gis _ (print s).
Proof. by intros w. Qed.

Lemma keeps_fs_ExtendTable t f a j b : keeps_fs (ExtendTable E t f a j b).
Proof. intros w. unfold ExtendTable. by destruct (arcpy_ExtendTable _ _ _ _ _ _ _). Qed.

Lemma keeps_fs_os_path_isdir d : @keeps_fs gis _ (os_path_isdir d).
Proof. intros w. by destruct d. Qed.

(** The two guarded [set_params] statements of [get_model], run on an
    instance [m0]: what the instance becomes and what is printed. *)
Lemma set_params_statements m0 alpha normalize w :
  let r_alpha := set_params E m0 "alpha" alpha in
  let m1 := match r_alpha with Return m => m | Raise _ => m0 end in
  let r_norm := set_params E m1 "normalize" normalize in
  let m2 := match r_norm with Return m => m | Raise _ => m1 end in
  with_local (Instance m0) (
    try_except_all (set_params_stmt E "alpha" alpha)
                   (on_world (print "Did not set alpha in model..."));;
    try_except_all (set_params_stmt E "normalize" normalize)
                   (on_world (print "Did not set normalize in model..."))) w
  = (World (w_gis w) (w_fs w) (w_messages w)
       (w_stdout w
        ++ match r_alpha with Raise _ => ["Did not set alpha in model..."] | _ => [] end
        ++ match r_norm with Raise _ => ["Did not set normalize in model..."] | _ => [] end),
     Return (Instance m2)).
Proof.
  intros r_alpha m1 r_norm m2. subst m2 r_norm m1 r_alpha.
  unfold with_local, mbind, Py_bind, try_except_all, set_params_stmt, on_world, print.
  destruct (set_params E m0 "alpha" alpha) as [ma|ea]; simpl;
    (match goal with
     | |- context [set_params E ?m "normalize" normalize] =>
         destruct (set_params E m "normalize" normalize) as [mn|en]
     end); simpl; rewrite ?app_nil_r, <- ?app_assoc; try done; by destruct w.
Qed.

(** The same two statements on an object that is no estimator: both calls
    fail for want of the method, both lines are printed, the object is
    handed on. *)
Lemma set_params_statements_other class_name text alpha normalize w :
  with_local (Other class_name text) (
    try_except_all (set_params_stmt E "alpha" alpha)
                   (on_world (print "Did not set alpha in model..."));;
    try_except_all (set_params_stmt E "normalize" normalize)
                   (on_world (print "Did not set normalize in model..."))) w
  = (World (w_gis w) (w_fs w) (w_messages w)
       (w_stdout w ++ ["Did not set alpha in model..."; "Did not set normalize in model..."]),
     Return (Other class_name text)).
Proof.
  unfold with_local, mbind, Py_bind, try_except_all, set_params_stmt, on_world, print.
  simpl. by rewrite <- app_assoc.
Qed.

Lemma keeps_fs_get_model globals rt module alpha normalize :
  keeps_fs (get_model E globals rt module alpha normalize).
Proof.
  unfold get_model, arc_tool_report, get_model_body.
  apply keeps_fs_bind; [apply keeps_fs_lift|]. intros md.
  apply keeps_fs_bind; [apply keeps_fs_arc_print|]. intros _.
  apply keeps_fs_bind; [apply keeps_fs_lift|]. intros cls.
  apply keeps_fs_bind; [apply keeps_fs_lift|]. intros [m0|class_name text] w.
  - by rewrite set_params_statements.
  - by rewrite set_params_statements_other.
Qed.

Lemma never_returns_bind_l {A B} (c : Py (world gis) A) (k : A → Py (world gis) B) :
  never_returns c → never_returns (c ≫= k).
Proof.
  intros Hc w. specialize (Hc w). unfold mbind, Py_bind.
  by destruct (c w) as [w1 [a|e]].
Qed.

Lemma never_returns_bind_r {A B} (c : Py (world gis) A) (k : A → Py (world gis) B) :
  (∀ a, never_returns (k a)) → never_returns (c ≫= k).
Proof.
  intros Hk w. unfold mbind, Py_bind.
  destruct (c w) as [w1 [a|e]]; [apply Hk | done].
Qed.

Lemma bind_raised {A B} (c : Py (world gis) A) (k : A → Py (world gis) B) w :
  raised (c w).2 → ∃ e, c w = ((c w).1, Raise e) ∧ (c ≫= k) w = ((c w).1, Raise e).
Proof.
  unfold mbind, Py_bind. destruct (c w) as [w1 [a|e]]; simpl; [done|]. eauto.
Qed.

(** ** get_model *)

Lemma get_model_unbound_module globals rt module alpha normalize w :
  globals !! module = None →
  get_model E globals rt module alpha normalize w = (w, Raise (Exn KeyError [PyStr module])).
Proof.
  intros H. unfold get_model, arc_tool_report, get_model_body, mbind, Py_bind, lift,
    globals_getitem. by rewrite H.
Qed.

(** Once the module is found, [get_model] logs its announcement, looks the
    name up, calls what it finds and runs the two guarded statements on
    the object the call returned. *)
Lemma get_model_bound_module globals md rt module alpha normalize w :
  globals !! module = Some md →
  get_model E globals rt module alpha normalize w
  = let w1 := (arc_print ("Using input feature class and selected variables to establish "
                          +:+ rt +:+ " Regression Model.") true w).1 in
    match getattr E md rt with
    | Raise e => (w1, Raise e)
    | Return a =>
        match call a with
        | Raise e => (w1, Raise e)
        | Return o =>
            with_local o (
              try_except_all (set_params_stmt E "alpha" alpha)
                             (on_world (print "Did not set alpha in model..."));;
              try_except_all (set_params_stmt E "normalize" normalize)
                             (on_world (print "Did not set normalize in model..."))) w1
        end
    end.
Proof.
  intros Hg. unfold get_model, arc_tool_report, get_model_body, mbind at 1 2 3 4,
    Py_bind, lift, globals_getitem. rewrite Hg. simpl.
  destruct (getattr E md rt) as [a|]; [|done]. by destruct (call a).
Qed.

Lemma get_model_unknown_name globals md rt module alpha normalize w :
  globals !! module = Some md → mod_dict md !! rt = None →
  module_type_attr E md rt = None →
  get_model E globals rt module alpha normalize w
  = ((arc_print ("Using input feature class and selected variables to establish "
                 +:+ rt +:+ " Regression Model.") true w).1,
     Raise (Exn AttributeError
       [PyStr ("module '" +:+ mod_name md +:+ "' has no attribute '" +:+ rt +:+ "'")])).
Proof.
  intros Hg Hn Ht. rewrite (get_model_bound_module _ _ _ _ _ _ _ Hg).
  unfold getattr. by rewrite Hn, Ht.
Qed.

Lemma get_model_class globals md cls rt module alpha normalize w :
  globals !! module = Some md → mod_dict md !! rt = Some (AClass cls) →
  get_model E globals rt module alpha normalize w
  = with_local (Instance (Estimator (cls_name cls) (cls_defaults cls) None None)) (
      try_except_all (set_params_stmt E "alpha" alpha)
                     (on_world (print "Did not set alpha in model..."));;
      try_except_all (set_params_stmt E "normalize" normalize)
                     (on_world (print "Did not set normalize in model...")))
      (arc_print ("Using input feature class and selected variables to establish "
                  +:+ rt +:+ " Regression Model.") true w).1.
Proof.
  intros Hg Hn. rewrite (get_model_bound_module _ _ _ _ _ _ _ Hg).
  unfold getattr. by rewrite Hn.
Qed.

Lemma set_params_est_class m key value m' :
  set_params E m key value = Return m' → est_class m' = est_class m.
Proof.
  unfold set_params. destruct (sk_set_params E m key value); [|done].
  by intros [= <-].
Qed.

(** C3: for a name bound to an estimator class, [get_model] returns an
    instance of that class, whatever [alpha] and [normalize] are.  Each of
    the two parameters is applied by its own [set_params] call; when a call
    raises, the instance is left as it was, a line is printed, and the other
    call is made all the same.  Nothing but the two log channels changes. *)
Theorem get_model_best_effort globals md cls rt module alpha normalize w :
  globals !! module = Some md →
  mod_dict md !! rt = Some (AClass cls) →
  let m0 := Estimator (cls_name cls) (cls_defaults cls) None None in
  let r_alpha := set_params E m0 "alpha" alpha in
  let m1 := match r_alpha with Return m => m | Raise _ => m0 end in
  let r_norm := set_params E m1 "normalize" normalize in
  let m2 := match r_norm with Return m => m | Raise _ => m1 end in
  ∃ w', get_model E globals rt module alpha normalize w = (w', Return (Instance m2))
    ∧ est_class m2 = cls_name cls
    ∧ w_stdout w' =
        w_stdout w
        ++ match r_alpha with Raise _ => ["Did not set alpha in model..."] | _ => [] end
        ++ match r_norm with Raise _ => ["Did not set normalize in model..."] | _ => [] end
    ∧ w_messages w' =
        w_messages w ++ ["Using input feature class and selected variables to establish "
                         +:+ rt +:+ " Regression Model."]
    ∧ w_fs w' = w_fs w ∧ w_gis w' = w_gis w.
Proof.
  intros Hg Hn m0 r_alpha m1 r_norm m2.
  rewrite (get_model_class _ _ _ _ _ _ _ _ Hg Hn), set_params_statements.
  fold m0 r_alpha m1 r_norm m2. eexists. split; [reflexivity|].
  split; [|done].
  subst m2 r_norm. destruct (set_params E m1 "normalize" normalize) as [mn|] eqn:Hn';
    [rewrite (set_params_est_class _ _ _ _ Hn')|];
    subst m1 r_alpha; destruct (set_params E m0 "alpha" alpha) as [ma|] eqn:Ha';
    try rewrite (set_params_est_class _ _ _ _ Ha'); done.
Qed.

(** ** The orchestrator leaves the filesystem to its output block *)

Lemma keeps_fs_fit_and_join globals in_fc rt dv ivs alpha normalize :
  keeps_fs (fit_and_join E globals in_fc rt dv ivs alpha normalize).
Proof.
  unfold fit_and_join.
  repeat first
    [ apply keeps_fs_ret
    | apply keeps_fs_lift
    | apply keeps_fs_arcpy_read
    | apply keeps_fs_arc_print
    | apply keeps_fs_ExtendTable
    | apply keeps_fs_get_model
    | apply keeps_fs_bind; [|intros ?; cbv zeta] ].
Qed.

Lemma handlers_keep_fs (body : Py (world gis) unit) w :
  w_fs (try_except_ExecuteError_Exception body
          (λ w, arc_print (arcpy_GetMessages E (w_gis w) 2) false w)
          (λ e, a ← lift (args_0 e); arc_print (py_str E a) false) w).1
  = w_fs (body w).1.
Proof.
  unfold try_except_ExecuteError_Exception.
  destruct (body w) as [w1 [[]|e]]; [done|].
  destruct (is_ExecuteError e); [done|].
  destruct (is_Exception e); [|done].
  unfold mbind, Py_bind, lift, args_0. by destruct (exc_args e).
Qed.

Lemma set_params_fitted_attributes m key value m' :
  set_params E m key value = Return m' →
  coef_ m' = coef_ m ∧ intercept_ m' = intercept_ m.
Proof.
  unfold set_params. destruct (sk_set_params E m key value); [|done].
  by intros [= <-].
Qed.

(** An estimator that [get_model] returns comes from a class of the
    module's namespace, and is unfitted. *)
Lemma get_model_Instance_inv globals rt module alpha normalize w w' m :
  get_model E globals rt module alpha normalize w = (w', Return (Instance m)) →
  ∃ md cls, globals !! module = Some md ∧ mod_dict md !! rt = Some (AClass cls)
    ∧ est_class m = cls_name cls ∧ coef_ m = None ∧ intercept_ m = None.
Proof.
  intros Hrun.
  destruct (globals !! module) as [md|] eqn:Hg.
  2: { by rewrite get_model_unbound_module in Hrun. }
  destruct (mod_dict md !! rt) as [[cls|err|class_name text]|] eqn:Hn.
  - exists md, cls. split; [done|]. split; [done|].
    rewrite (get_model_class _ _ _ _ _ _ _ _ Hg Hn), set_params_statements in Hrun.
    injection Hrun as _ <-.
    destruct (set_params E (Estimator (cls_name cls) (cls_defaults cls) None None)
                "alpha" alpha) as [ma|] eqn:Ha;
      [destruct (set_params_fitted_attributes _ _ _ _ Ha) as [Hc Hi];
       pose proof (set_params_est_class _ _ _ _ Ha) as Hcls|];
      (match goal with
       | |- context [set_params E ?m0 "normalize" normalize] =>
           destruct (set_params E m0 "normalize" normalize) as [mn|] eqn:Hn';
           [destruct (set_params_fitted_attributes _ _ _ _ Hn') as [Hc' Hi'];
            pose proof (set_params_est_class _ _ _ _ Hn') as Hcls'|]
       end); simpl in *; repeat split; congruence.
  - exfalso. rewrite (get_model_bound_module _ _ _ _ _ _ _ Hg) in Hrun.
    unfold getattr in Hrun. by rewrite Hn in Hrun.
  - exfalso. rewrite (get_model_bound_module _ _ _ _ _ _ _ Hg) in Hrun.
    unfold getattr in Hrun. rewrite Hn in Hrun. simpl in Hrun.
    by rewrite set_params_statements_other in Hrun.
  - exfalso. rewrite (get_model_bound_module _ _ _ _ _ _ _ Hg) in Hrun.
    unfold getattr in Hrun. rewrite Hn in Hrun.
    destruct (module_type_attr E md rt) as [[[class_name text]|e]|]; simpl in Hrun;
      [|done..].
    by rewrite set_params_statements_other in Hrun.
Qed.

(** Without a class under the name no run gets past the fit: [get_model]
    raises, or hands on an object that has no [fit]. *)
Lemma fit_and_join_needs_class globals in_fc rt dv ivs alpha normalize :
  (∀ md cls, globals !! "linear_model" = Some md → mod_dict md !! rt ≠ Some (AClass cls)) →
  never_returns (fit_and_join E globals in_fc rt dv ivs alpha normalize).
Proof.
  intros Hno. unfold fit_and_join.
  do 7 (apply never_returns_bind_r; intros ?; cbv zeta).
  intros w. unfold mbind at 1, Py_bind.
  destruct (get_model E globals rt "linear_model" alpha normalize w)
    as [w1 [[m|class_name text]|e]] eqn:Hrun; [|done..].
  destruct (get_model_Instance_inv _ _ _ _ _ _ _ _ Hrun) as (md & cls & Hg & Hn & _).
  by destruct (Hno md cls).
Qed.

(** What a returned [fit_and_join] tells: the name denoted a class of
    [linear_model], the model is a fitted instance of it, and the report is
    the summary of that model. *)
Lemma fit_and_join_Return_inv globals in_fc rt dv ivs alpha normalize w w1 m report :
  fit_and_join E globals in_fc rt dv ivs alpha normalize w = (w1, Return (m, report)) →
  ∃ md cls y yhat X,
    globals !! "linear_model" = Some md ∧ mod_dict md !! rt = Some (AClass cls)
    ∧ est_class m = cls_name cls ∧ is_Some (coef_ m) ∧ is_Some (intercept_ m)
    ∧ regression_summary E m y yhat ivs X = Return report.
Proof.
  intros Hfit. unfold fit_and_join in Hfit.
  repeat (apply bind_Return_inv in Hfit as (? & ? & ? & Hfit); cbv zeta in Hfit).
  injection Hfit as _ <- <-.
  repeat match goal with
         | H : lift _ _ = _ |- _ => unfold lift in H; injection H as <- ?
         end.
  match goal with
  | H : fit_object _ ?o ?X0 ?y0 = Return _ |- _ =>
      destruct o as [m0|class_name text]; [|done]; simpl in H;
      unfold fit in H; destruct (sk_fit E m0 X0 y0) as [[c i]|]; [|done];
      injection H as <-
  end.
  match goal with
  | H : get_model _ _ _ _ _ _ _ = _ |- _ =>
      destruct (get_model_Instance_inv _ _ _ _ _ _ _ _ H)
        as (md & cls & Hg & Hn & Hcls & _ & _)
  end.
  match goal with
  | H : regression_summary _ _ _ _ _ _ = Return _ |- _ =>
      exists md, cls; do 3 eexists; repeat split; [done..| | |exact H]
  end; simpl; eauto.
Qed.

Lemma orchestrator_needs_class_fs globals in_fc rt dv ivs alpha normalize output_dir w :
  (∀ md cls, globals !! "linear_model" = Some md → mod_dict md !! rt ≠ Some (AClass cls)) →
  w_fs (feature_class_sklearn_regression E globals in_fc rt dv ivs alpha normalize
          output_dir w).1 = w_fs w.
Proof.
  intros Hno. unfold feature_class_sklearn_regression. rewrite handlers_keep_fs.
  unfold feature_class_sklearn_regression_try.
  destruct (bind_raised (fit_and_join E globals in_fc rt dv ivs alpha normalize)
    (λ fitted,
       let '(regression_model, regession_report) := fitted in
       valid_output_file_directory ← os_path_isdir output_dir;
       text_report ← (if valid_output_file_directory : bool
                      then handle ← open_outputs E regression_model rt output_dir;
                           mret (Some handle)
                      else mret None);
       emit_report regession_report text_report;;
       arc_print "Script Completed Successfully." true) w) as (e & _ & ->).
  { by apply fit_and_join_needs_class. }
  apply keeps_fs_fit_and_join.
Qed.

(** C5, as the code has it: a regression type that the attribute lookup
    does not find on [linear_model], neither in the module's namespace nor
    among what the type of modules provides, makes [get_model] raise the
    AttributeError of the lookup (the spec's UnknownModelError); and every
    invocation of the orchestrator with a type that the namespace does not
    hold leaves the filesystem exactly as it found it, whether the lookup
    fails or not: neither the report nor the model file is written. *)
Theorem unknown_model_raises_and_writes_nothing globals md in_fc rt dv ivs alpha normalize
    output_dir w :
  globals !! "linear_model" = Some md →
  mod_dict md !! rt = None →
  (module_type_attr E md rt = None →
   ∃ w', get_model E globals rt "linear_model" alpha normalize w
         = (w', Raise (Exn AttributeError
              [PyStr ("module '" +:+ mod_name md +:+ "' has no attribute '" +:+ rt +:+ "'")])))
  ∧ w_fs (feature_class_sklearn_regression E globals in_fc rt dv ivs alpha normalize
            output_dir w).1 = w_fs w.
Proof.
  intros Hg Hn. split.
  - intros Ht. rewrite (get_model_unknown_name _ _ _ _ _ _ _ Hg Hn Ht). eauto.
  - apply orchestrator_needs_class_fs. intros md' cls Hg' Hn'. congruence.
Qed.

(** C9: [get_model] resolves its module argument through the script's
    globals.  A name that is not bound there raises the KeyError of that
    lookup, with nothing logged and no attribute looked up, whatever the
    regression type; an estimator that [get_model] returns is an instance
    of a class found in the module that the name is bound to.  The
    orchestrator asks for "linear_model" and for nothing else: with that
    name unbound no run gets as far as a fit, and a run that does fit has
    an instance of a class of the namespace bound to that name. *)
Theorem get_model_resolves_through_globals globals module rt alpha normalize w :
  (globals !! module = None →
   get_model E globals rt module alpha normalize w
   = (w, Raise (Exn KeyError [PyStr module])))
  ∧ (∀ w' m,
       get_model E globals rt module alpha normalize w = (w', Return (Instance m)) →
       ∃ md cls, globals !! module = Some md
                 ∧ mod_dict md !! rt = Some (AClass cls)
                 ∧ est_class m = cls_name cls)
  ∧ (globals !! "linear_model" = None →
     ∀ in_fc dv ivs, raised (fit_and_join E globals in_fc rt dv ivs alpha normalize w).2)
  ∧ (∀ in_fc dv ivs w1 m report,
       fit_and_join E globals in_fc rt dv ivs alpha normalize w = (w1, Return (m, report)) →
       ∃ md cls, globals !! "linear_model" = Some md
                 ∧ mod_dict md !! rt = Some (AClass cls)
                 ∧ est_class m = cls_name cls).
Proof.
  split; [by apply get_model_unbound_module|]. split; [|split].
  - intros w' m Hrun.
    destruct (get_model_Instance_inv _ _ _ _ _ _ _ _ Hrun)
      as (md & cls & Hg & Hn & Hcls & _).
    eauto.
  - intros Hg in_fc dv ivs. apply fit_and_join_needs_class.
    intros md cls. by rewrite Hg.
  - intros in_fc dv ivs w1 m report Hfit.
    destruct (fit_and_join_Return_inv _ _ _ _ _ _ _ _ _ _ _ Hfit)
      as (md & cls & _ & _ & _ & Hg & Hn & Hcls & _).
    eauto.
Qed.

(** ** regression_summary *)

(** The optional block only adds lines at the end of the list. *)
Lemma regressor_scores_frame y names X (l : list string) :
  regressor_scores E y names X l
  = (l ++ (regressor_scores E y names X []).1, (regressor_scores E y names X []).2).
Proof.
  unfold regressor_scores, mbind, Py_bind, lift, list_append.
  destruct (shape0 X) as [rx|]; [|by rewrite app_nil_r].
  destruct (shape0 y) as [ry|]; [|by rewrite app_nil_r].
  destruct (decide (rx = ry)); [|by rewrite app_nil_r].
  destruct (f_regression E X y) as [[f p]|]; [|done].
  destruct (decide (length names = length p)); simpl; by rewrite <- !app_assoc.
Qed.

Lemma regression_summary_fitted m y yhat names X cs i r2 mse mae medae :
  coef_ m = Some cs → intercept_ m = Some i →
  r2_score E y yhat = Return r2 → mean_squared_error E y yhat = Return mse →
  mean_absolute_error E y yhat = Return mae → median_absolute_error E y yhat = Return medae →
  regression_summary E m y yhat names X
  = Return ([ "REGRESSION MODEL: " +:+ sk_str E m;
              "MODEL COEFFICENTS";
              "  Regression Coefficents:  "
                +:+ (if decide (length names = length cs)
                     then str_join " + " (coef_term E <$> zip cs names)
                     else str_vector E cs);
              "  Regression Intercept:    " +:+ str_float E i;
              "MODEL EVALUATION";
              "  Model Coefficent of Determination: " +:+ str_float E r2;
              "  Model Mean Squared Error:          " +:+ str_float E mse;
              "  Model Mean Absolute Error:         " +:+ str_float E mae;
              "  Model Median Absolute Error:       " +:+ str_float E medae ]
            ++ (regressor_scores E y names X []).1).
Proof.
  intros Hc Hi H1 H2 H3 H4.
  unfold regression_summary, arc_tool_report, regression_summary_body,
    regression_summary_frame, mbind, Py_bind, lift, list_append, get_state,
    getattr_coef_, getattr_intercept_, try_except_all.
  rewrite Hc, Hi, H1, H2, H3, H4. simpl.
  destruct (decide (length names = length cs)); simpl;
    rewrite regressor_scores_frame;
    by destruct ((regressor_scores E y names X []).2).
Qed.

(** What a report that was returned says about the model and the metrics. *)
Lemma regression_summary_Return_inv m y yhat names X lines :
  regression_summary E m y yhat names X = Return lines →
  ∃ cs i r2 mse mae medae,
    coef_ m = Some cs ∧ intercept_ m = Some i ∧
    r2_score E y yhat = Return r2 ∧ mean_squared_error E y yhat = Return mse ∧
    mean_absolute_error E y yhat = Return mae ∧ median_absolute_error E y yhat = Return medae.
Proof.
  unfold regression_summary, arc_tool_report, regression_summary_body,
    regression_summary_frame, mbind, Py_bind, lift, list_append,
    getattr_coef_, getattr_intercept_.
  destruct (coef_ m) as [cs|]; [|done].
  destruct (decide (length names = length cs)); simpl;
    (destruct (intercept_ m) as [i|]; [|done]);
    (destruct (r2_score E y yhat) as [r2|]; [|done]);
    (destruct (mean_squared_error E y yhat) as [mse|]; [|done]);
    (destruct (mean_absolute_error E y yhat) as [mae|]; [|done]);
    (destruct (median_absolute_error E y yhat) as [medae|]; [|done]);
    intros _; by exists cs, i, r2, mse, mae, medae.
Qed.

Lemma regression_summary_Raise_fitted m y yhat names X cs i e :
  coef_ m = Some cs → intercept_ m = Some i →
  regression_summary E m y yhat names X = Raise e →
  r2_score E y yhat = Raise e ∨ mean_squared_error E y yhat = Raise e ∨
  mean_absolute_error E y yhat = Raise e ∨ median_absolute_error E y yhat = Raise e.
Proof.
  intros Hc Hi.
  destruct (r2_score E y yhat) as [r2|e1] eqn:H1;
    [destruct (mean_squared_error E y yhat) as [mse|e2] eqn:H2;
      [destruct (mean_absolute_error E y yhat) as [mae|e3] eqn:H3;
        [destruct (median_absolute_error E y yhat) as [medae|e4] eqn:H4|]|]|].
  { by rewrite (regression_summary_fitted _ _ _ _ _ _ _ _ _ _ _ Hc Hi H1 H2 H3 H4). }
  all: unfold regression_summary, arc_tool_report, regression_summary_body,
    regression_summary_frame, mbind, Py_bind, lift, list_append,
    getattr_coef_, getattr_intercept_;
    rewrite Hc, Hi, ?H1, ?H2, ?H3, ?H4;
    destruct (decide (length names = length cs)); simpl; intros [= ->]; auto.
Qed.

(** [str_join] is the standard library's [String.concat]. *)
Lemma str_join_concat sep (parts : list string) :
  str_join sep parts = String.concat sep parts.
Proof.
  induction parts as [|p [|q rest] IH]; [done..|].
  change (str_join sep (p :: q :: rest)) with (p +:+ sep +:+ str_join sep (q :: rest)).
  by rewrite IH.
Qed.

Lemma str_join_terms_lookup (cs : list float) (names : list string) k c n :
  cs !! k = Some c → names !! k = Some n →
  (coef_term E <$> zip cs names) !! k
  = Some (str_float E (py_round E c 3) +:+ " * " +:+ n).
Proof.
  intros Hc Hn. rewrite list_lookup_fmap.
  assert (zip cs names !! k = Some (c, n)) as ->; [|done].
  revert names k Hc Hn. induction cs as [|c0 cs IH]; intros [|n0 names] [|k] ??;
    simplify_eq/=; [done|]. by apply IH.
Qed.

Lemma regressor_scores_cases y names X :
  (regressor_scores E y names X []).1 =
    match shape0 X, shape0 y with
    | Return rx, Return ry =>
        if decide (rx = ry) then
          match f_regression E X y with
          | Return (f, p) =>
              [ "REGRESSOR SCORES";
                "  Regressor F-Scores:     "
                  +:+ (if decide (length names = length p)
                       then str_pairs E (zip names f) else str_vector E f);
                "  Regressor P-Values:     "
                  +:+ (if decide (length names = length p)
                       then str_pairs E (zip names p) else str_vector E p) ]
          | Raise _ => ["REGRESSOR SCORES"]
          end
        else []
    | _, _ => []
    end.
Proof.
  unfold regressor_scores, mbind, Py_bind, lift, list_append.
  destruct (shape0 X) as [rx|]; [|done].
  destruct (shape0 y) as [ry|]; [|done].
  destruct (decide (rx = ry)); [|done].
  destruct (f_regression E X y) as [[f p]|]; [|done].
  by destruct (decide (length names = length p)).
Qed.

(** C1, as the code has it: once the nine leading lines are built (a fitted
    model, the four metrics computed), the report is returned whatever the
    independent array is, so nothing raised in the optional block reaches
    the caller.  The F-score and p-value lines are there exactly when both
    row counts can be read, are equal, and the F-regression call returns.
    When the counts differ or cannot be read, the block adds nothing; when
    they are equal and F-regression raises, the header appended before the
    call stays. *)
Theorem regressor_scores_block m y yhat names cs i r2 mse mae medae :
  coef_ m = Some cs → intercept_ m = Some i →
  r2_score E y yhat = Return r2 → mean_squared_error E y yhat = Return mse →
  mean_absolute_error E y yhat = Return mae → median_absolute_error E y yhat = Return medae →
  ∃ head, length head = 9 ∧ ∀ X, ∃ block,
    regression_summary E m y yhat names X = Return (head ++ block)
    ∧ ((∃ f_line p_line, block = ["REGRESSOR SCORES"; f_line; p_line])
       ↔ (∃ n scores, shape0 X = Return n ∧ shape0 y = Return n
                      ∧ f_regression E X y = Return scores))
    ∧ (∀ n f p, shape0 X = Return n → shape0 y = Return n →
         f_regression E X y = Return (f, p) →
         block = [ "REGRESSOR SCORES";
                   "  Regressor F-Scores:     "
                     +:+ (if decide (length names = length p)
                          then str_pairs E (zip names f) else str_vector E f);
                   "  Regressor P-Values:     "
                     +:+ (if decide (length names = length p)
                          then str_pairs E (zip names p) else str_vector E p) ])
    ∧ (∀ n e, shape0 X = Return n → shape0 y = Return n →
         f_regression E X y = Raise e → block = ["REGRESSOR SCORES"])
    ∧ ((∀ n, ¬ (shape0 X = Return n ∧ shape0 y = Return n)) → block = []).
Proof.
  intros Hc Hi H1 H2 H3 H4. eexists. split; [|intros X; eexists; split].
  2: { apply (regression_summary_fitted _ _ _ _ X _ _ _ _ _ _ Hc Hi H1 H2 H3 H4). }
  { done. }
  rewrite regressor_scores_cases.
  destruct (shape0 X) as [rx|ex]; [destruct (shape0 y) as [ry|ey];
    [destruct (decide (rx = ry)) as [->|Hne];
      [destruct (f_regression E X y) as [[f p]|ef]|]|]|].
  - repeat split; eauto; try (intros; simplify_eq; done).
    intros Hno. by destruct (Hno ry).
  - repeat split; try (intros; simplify_eq; done).
    + by intros (? & ? & [=]).
    + by intros (? & ? & _ & _ & [=]).
    + intros Hno. by destruct (Hno ry).
  - repeat split; try (intros; simplify_eq; done).
    + by intros (? & ? & [=]).
    + intros (? & ? & ? & ? & _). simplify_eq.
  - repeat split; try (intros; simplify_eq; done).
    + by intros (? & ? & [=]).
    + by intros (? & ? & _ & [=] & _).
  - repeat split; try (intros; simplify_eq; done).
    + by intros (? & ? & [=]).
    + by intros (? & ? & [=] & _).
Qed.

(** C6: in every report that is returned, the third line is the coefficient
    line.  With as many names as coefficients it is the prefix followed by
    one term per coefficient, in the order of the coefficients, with " + "
    between two terms and nowhere else (the standard library's
    [String.concat]), the k-th term being the k-th coefficient rounded to
    three decimals, " * " and the k-th name; with a different number of
    names it is the prefix followed by the printed coefficient vector. *)
Theorem coefficient_line m y yhat names X cs lines :
  coef_ m = Some cs →
  regression_summary E m y yhat names X = Return lines →
  ∃ line, lines !! 2 = Some line
    ∧ (length names = length cs →
       ∃ terms, line = "  Regression Coefficents:  " +:+ String.concat " + " terms
         ∧ length terms = length cs
         ∧ ∀ k c n, cs !! k = Some c → names !! k = Some n →
             terms !! k = Some (str_float E (py_round E c 3) +:+ " * " +:+ n))
    ∧ (length names ≠ length cs →
       line = "  Regression Coefficents:  " +:+ str_vector E cs).
Proof.
  intros Hc Hr.
  destruct (regression_summary_Return_inv _ _ _ _ _ _ Hr)
    as (cs' & i & r2 & mse & mae & medae & Hc' & Hi & H1 & H2 & H3 & H4).
  assert (cs' = cs) as -> by congruence.
  rewrite (regression_summary_fitted _ _ _ _ _ _ _ _ _ _ _ Hc Hi H1 H2 H3 H4) in Hr.
  injection Hr as <-. eexists. split; [reflexivity|].
  destruct (decide (length names = length cs)) as [Hlen|Hlen]; split; try done.
  intros _. exists (coef_term E <$> zip cs names).
  split; [by rewrite str_join_concat|]. split.
  - rewrite length_fmap, length_zip_with. lia.
  - apply str_join_terms_lookup.
Qed.

(** C10: the report builder needs a fitted model.  When the coefficient
    vector or the intercept is missing it raises an AttributeError and
    returns no list; when both are there the attribute reads succeed, and
    an exception that leaves the function is one that a metric raised. *)
Theorem regression_summary_requires_fitted m y yhat names X :
  (coef_ m = None ∨ intercept_ m = None →
   ∃ e, regression_summary E m y yhat names X = Raise e ∧ exc_type e = AttributeError)
  ∧ (∀ cs i, coef_ m = Some cs → intercept_ m = Some i →
     getattr_coef_ m = Return cs ∧ getattr_intercept_ m = Return i
     ∧ ∀ e, regression_summary E m y yhat names X = Raise e →
         r2_score E y yhat = Raise e ∨ mean_squared_error E y yhat = Raise e ∨
         mean_absolute_error E y yhat = Raise e ∨ median_absolute_error E y yhat = Raise e).
Proof.
  split.
  - intros H.
    unfold regression_summary, arc_tool_report, regression_summary_body,
      regression_summary_frame, mbind, Py_bind, lift, list_append,
      getattr_coef_, getattr_intercept_.
    destruct (coef_ m) as [cs|]; simpl; [|eauto].
    destruct H as [|H]; [done|]. rewrite H.
    destruct (decide (length names = length cs)); simpl; eauto.
  - intros cs i Hc Hi. unfold getattr_coef_, getattr_intercept_. rewrite Hc, Hi.
    repeat split. intros e. by apply regression_summary_Raise_fitted with cs i.
Qed.

(** ** The orchestrator *)

Lemma emit_report_None report w :
  emit_report report None w
  = (World (w_gis w) (w_fs w) (w_messages w ++ report) (w_stdout w), Return tt).
Proof.
  revert w. induction report as [|line report IH]; intros w.
  - simpl. rewrite app_nil_r. by destruct w.
  - unfold emit_report in *. simpl. unfold mbind at 1 2, Py_bind, arc_print at 1. simpl.
    rewrite IH. simpl. by rewrite <- app_assoc.
Qed.

(** A string that names no directory: the report is logged, the filesystem
    is left alone, the run completes. *)
Lemma invalid_output_dir_logs_report globals in_fc rt dv ivs alpha normalize d w w1 m report :
  fit_and_join E globals in_fc rt dv ivs alpha normalize w = (w1, Return (m, report)) →
  d ∉ fs_dirs (w_fs w1) →
  feature_class_sklearn_regression E globals in_fc rt dv ivs alpha normalize (Some d) w
  = (World (w_gis w1) (w_fs w1)
       (w_messages w1 ++ report ++ ["Script Completed Successfully."]) (w_stdout w1),
     Return tt).
Proof.
  intros Hfit Hd.
  unfold feature_class_sklearn_regression, try_except_ExecuteError_Exception,
    feature_class_sklearn_regression_try.
  rewrite (bind_Return _ _ _ _ _ Hfit).
  unfold mbind at 1 2, Py_bind, os_path_isdir. rewrite bool_decide_eq_false_2 by done.
  unfold mret at 1, Py_ret. unfold mbind, Py_bind. rewrite emit_report_None.
  unfold arc_print. simpl. by rewrite <- app_assoc.
Qed.

(** C2, the failing run: with [output_dir] left at its default [None], the
    directory test itself raises; the generic handler logs the TypeError's
    message and the run ends there, the report that [regression_summary]
    had built never being logged. *)
Theorem absent_output_dir_aborts globals in_fc rt dv ivs alpha normalize w w1 m report :
  fit_and_join E globals in_fc rt dv ivs alpha normalize w = (w1, Return (m, report)) →
  feature_class_sklearn_regression E globals in_fc rt dv ivs alpha normalize None w
  = (World (w_gis w1) (w_fs w1)
       (w_messages w1
        ++ ["stat: path should be string, bytes, os.PathLike or integer, not NoneType"])
       (w_stdout w1),
     Return tt).
Proof.
  intros Hfit.
  unfold feature_class_sklearn_regression, try_except_ExecuteError_Exception,
    feature_class_sklearn_regression_try.
  by rewrite (bind_Return _ _ _ _ _ Hfit).
Qed.

Lemma not_Exception_not_ExecuteError e :
  is_Exception e = false → is_ExecuteError e = false.
Proof. unfold is_Exception, is_ExecuteError. by destruct (exc_type e). Qed.

(** C4, as the code has it: when the body of the [try] raises, the run
    stops where it was, with no retry and no rollback.  An ExecuteError is
    answered by logging the platform's error messages; any other exception
    that derives from Exception and carries at least one argument is
    answered by logging its first argument.  In both cases the invocation
    returns normally.  An exception that does not derive from Exception is
    not caught: it leaves the orchestrator as it was raised, with nothing
    logged for it. *)
Theorem handlers_report_and_halt globals in_fc rt dv ivs alpha normalize output_dir w w1 e :
  feature_class_sklearn_regression_try E globals in_fc rt dv ivs alpha normalize output_dir w
  = (w1, Raise e) →
  (is_ExecuteError e = true →
   feature_class_sklearn_regression E globals in_fc rt dv ivs alpha normalize output_dir w
   = (World (w_gis w1) (w_fs w1)
        (w_messages w1 ++ [arcpy_GetMessages E (w_gis w1) 2]) (w_stdout w1),
      Return tt))
  ∧ (is_ExecuteError e = false → is_Exception e = true →
     ∀ a rest, exc_args e = a :: rest →
     feature_class_sklearn_regression E globals in_fc rt dv ivs alpha normalize output_dir w
     = (World (w_gis w1) (w_fs w1) (w_messages w1 ++ [py_str E a]) (w_stdout w1),
        Return tt))
  ∧ (is_Exception e = false →
     feature_class_sklearn_regression E globals in_fc rt dv ivs alpha normalize output_dir w
     = (w1, Raise e)).
Proof.
  intros Hbody.
  unfold feature_class_sklearn_regression, try_except_ExecuteError_Exception.
  rewrite Hbody. split; [|split].
  - by intros ->.
  - intros -> -> a rest Hargs. unfold mbind, Py_bind, lift, args_0. by rewrite Hargs.
  - intros Hex. by rewrite (not_Exception_not_ExecuteError _ Hex), Hex.
Qed.



(** ** A run with a valid output directory *)

Lemma string_app_assoc (a b c : string) : (a +:+ b) +:+ c = a +:+ b +:+ c.
Proof.
  induction a as [|x a IH]; [done|].
  change (String x ((a +:+ b) +:+ c) = String x (a +:+ b +:+ c)). by rewrite IH.
Qed.

Lemma string_app_nil_r (a : string) : a +:+ "" = a.
Proof.
  induction a as [|x a IH]; [done|].
  change (String x (a +:+ "") = String x a). by rewrite IH.
Qed.




(** Every report that is built opens with the same nine lines: the model,
    the coefficients, the intercept and the four metrics, one line each,
    under their two headings. *)
Theorem report_leading_lines m y yhat names X cs i r2 mse mae medae :
  coef_ m = Some cs → intercept_ m = Some i →
  r2_score E y yhat = Return r2 → mean_squared_error E y yhat = Return mse →
  mean_absolute_error E y yhat = Return mae → median_absolute_error E y yhat = Return medae →
  ∃ coefficients scores,
    regression_summary E m y yhat names X
    = Return ([ "REGRESSION MODEL: " +:+ sk_str E m;
                "MODEL COEFFICENTS";
                "  Regression Coefficents:  " +:+ coefficients;
                "  Regression Intercept:    " +:+ str_float E i;
                "MODEL EVALUATION";
                "  Model Coefficent of Determination: " +:+ str_float E r2;
                "  Model Mean Squared Error:          " +:+ str_float E mse;
                "  Model Mean Absolute Error:         " +:+ str_float E mae;
                "  Model Median Absolute Error:       " +:+ str_float E medae ]
              ++ scores)
    ∧ length scores ≤ 3.
Proof.
  intros Hc Hi H1 H2 H3 H4.
  rewrite (regression_summary_fitted _ _ _ _ X _ _ _ _ _ _ Hc Hi H1 H2 H3 H4).
  do 2 eexists. split; [done|].
  rewrite regressor_scores_cases.
  destruct (shape0 X); [|simpl; lia]. destruct (shape0 y); [|simpl; lia].
  case_decide; [|simpl; lia].
  destruct (f_regression E X y) as [[]|]; simpl; lia.
Qed.

End Properties.

(** * Properties of the rest of the script *)

Section EntryProperties.

Context {gis : Type} (E : Env gis).

Implicit Types (w : world gis) (m : estimator) (globals : gmap string pymodule).

(** ** Splitting the field list *)

Lemma string_app_cons (c : Ascii.ascii) (a b : string) :
  String c a +:+ b = String c (a +:+ b).
Proof. reflexivity. Qed.

Lemma str_join_cons sep p (rest : list string) :
  rest ≠ [] → str_join sep (p :: rest) = p +:+ sep +:+ str_join sep rest.
Proof. by destruct rest. Qed.

Lemma split_from_not_nil sep piece s : split_from sep piece s ≠ [].
Proof.
  revert piece. induction s as [|c rest IH]; intros piece; simpl; [done|].
  case_decide; [done | apply IH].
Qed.

Lemma occurrences_app c (a b : string) :
  occurrences c (a +:+ b) = occurrences c a + occurrences c b.
Proof.
  induction a as [|x a IH]; [done|].
  rewrite string_app_cons. simpl. rewrite IH. lia.
Qed.

Lemma split_from_join sep piece s :
  str_join (String sep "") (split_from sep piece s) = piece +:+ s.
Proof.
  revert piece. induction s as [|c rest IH]; intros piece; simpl.
  - by rewrite string_app_nil_r.
  - case_decide as Hc.
    + subst c. rewrite str_join_cons by apply split_from_not_nil. by rewrite IH.
    + rewrite IH. by rewrite string_app_assoc.
Qed.

Lemma split_from_length sep piece s :
  length (split_from sep piece s) = S (occurrences sep s).
Proof.
  revert piece. induction s as [|c rest IH]; intros piece; simpl; [done|].
  case_decide; simpl; by rewrite IH.
Qed.

Lemma split_from_pieces sep piece s :
  occurrences sep piece = 0 →
  Forall (λ q, occurrences sep q = 0) (split_from sep piece s).
Proof.
  revert piece. induction s as [|c rest IH]; intros piece Hp; simpl.
  - by constructor.
  - case_decide as Hc.
    + constructor; [done|]. by apply IH.
    + apply IH. rewrite occurrences_app, Hp. simpl. by rewrite decide_False.
Qed.

Lemma split_from_app sep piece q s :
  occurrences sep q = 0 →
  split_from sep piece (q +:+ s) = split_from sep (piece +:+ q) s.
Proof.
  revert piece. induction q as [|c q IH]; intros piece Hq.
  - by rewrite string_app_nil_r.
  - rewrite string_app_cons. simpl in *. case_decide as Hc; [done|].
    rewrite IH by done. by rewrite string_app_assoc.
Qed.

(** The pieces of a split text, put back together with the separator
    between them, are the text; there is one piece more than there are
    separators in the text, so there is always at least one; and no piece
    holds a separator. *)
Theorem split_pieces sep s :
  str_join (String sep "") (split sep s) = s
  ∧ length (split sep s) = S (occurrences sep s)
  ∧ Forall (λ piece, occurrences sep piece = 0) (split sep s).
Proof.
  unfold split. split; [apply split_from_join|].
  split; [apply split_from_length | by apply split_from_pieces].
Qed.

(** One or more names that hold no separator, joined by the separator and
    split again, are the same names in the same order. *)
Theorem split_join_names sep (names : list string) :
  names ≠ [] →
  Forall (λ name, occurrences sep name = 0) names →
  split sep (str_join (String sep "") names) = names.
Proof.
  unfold split. induction names as [|name names IH]; intros Hne Hall; [done|].
  apply Forall_cons in Hall as [Hname Hall].
  destruct names as [|name' names].
  - simpl. rewrite <- (string_app_nil_r name) at 1.
    by rewrite split_from_app.
  - rewrite str_join_cons by done.
    rewrite split_from_app by done. rewrite string_app_cons. simpl.
    rewrite decide_True by done. f_equal. by apply IH.
Qed.

(** ** What a run leaves alone *)

Lemma keeps_gis_ret {A} (a : A) : @keeps_gis gis A (mret a).
Proof. by intros w. Qed.

Lemma keeps_gis_lift {A} (o : outcome A) : @keeps_gis gis A (lift o).
Proof. by intros w. Qed.

Lemma keeps_gis_bind {A B} (c : Py (world gis) A) (k : A → Py (world gis) B) :
  keeps_gis c → (∀ a, keeps_gis (k a)) → keeps_gis (c ≫= k).
Proof.
  intros Hc Hk w. unfold mbind, Py_bind. specialize (Hc w).
  destruct (c w) as [w1 [a|e]]; simpl in *; [|done].
  by rewrite Hk.
Qed.

Lemma keeps_gis_arcpy_read {A} (f : gis → outcome A) : keeps_gis (arcpy_read f).
Proof. by intros w. Qed.

Lemma keeps_gis_arc_print s b : @keeps_gis gis _ (arc_print s b).
Proof. by intros w. Qed.

Lemma keeps_gis_os_path_isdir d : @keeps_gis gis _ (os_path_isdir d).
Proof. intros w. by destruct d. Qed.

Lemma keeps_gis_os_path_exists p : @keeps_gis gis _ (os_path_exists p).
Proof. by intros w. Qed.

Lemma keeps_gis_open_w p : keeps_gis (open_w E p).
Proof.
  intros w. unfold open_w. destruct (os_access_error E (w_fs w) p); [done|].
  by case_decide.
Qed.

Lemma keeps_gis_os_remove p : keeps_gis (os_remove E p).
Proof.
  intros w. unfold os_remove. destruct (os_access_error E (w_fs w) p); [done|].
  destruct (fs_files (w_fs w) !! p); [done|]. by case_decide.
Qed.

Lemma keeps_gis_file_write h t : @keeps_gis gis _ (file_write h t).
Proof. by intros w. Qed.

Lemma keeps_gis_dump m p : keeps_gis (dump E m p).
Proof. intros w. unfold dump. by destruct (joblib_dump E m p (w_fs w)). Qed.

Lemma keeps_gis_for_each {A} (xs : list A) (body : A → Py (world gis) unit) :
  (∀ x, keeps_gis (body x)) → keeps_gis (for_each xs body).
Proof.
  intros Hbody. induction xs as [|x xs IH]; simpl; [apply keeps_gis_ret|].
  apply keeps_gis_bind; [apply Hbody | by intros _].
Qed.

Lemma keeps_gis_get_model globals rt module alpha normalize :
  keeps_gis (get_model E globals rt module alpha normalize).
Proof.
  unfold get_model, arc_tool_report, get_model_body.
  apply keeps_gis_bind; [apply keeps_gis_lift|]. intros md.
  apply keeps_gis_bind; [apply keeps_gis_arc_print|]. intros _.
  apply keeps_gis_bind; [apply keeps_gis_lift|]. intros cls.
  apply keeps_gis_bind; [apply keeps_gis_lift|]. intros [m0|class_name text] w.
  - by rewrite set_params_statements.
  - by rewrite set_params_statements_other.
Qed.

(** Everything the orchestrator does once the report is built. *)
Lemma keeps_gis_outputs m rt output_dir (report : list string) :
  keeps_gis (
    valid_output_file_directory ← os_path_isdir output_dir;
    text_report ← (if valid_output_file_directory : bool
                   then handle ← open_outputs E m rt output_dir;
                        mret (Some handle)
                   else mret None);
    emit_report report text_report;;
    arc_print "Script Completed Successfully." true).
Proof.
  apply keeps_gis_bind; [apply keeps_gis_os_path_isdir|]. intros valid.
  apply keeps_gis_bind.
  { destruct valid; [|apply keeps_gis_ret].
    apply keeps_gis_bind; [|intros ?; apply keeps_gis_ret].
    unfold open_outputs.
    repeat first
      [ apply keeps_gis_ret | apply keeps_gis_lift | apply keeps_gis_arc_print
      | apply keeps_gis_open_w | apply keeps_gis_os_path_exists
      | apply keeps_gis_os_remove | apply keeps_gis_dump
      | apply keeps_gis_bind; [|intros ?; cbv zeta]
      | match goal with |- keeps_gis (if ?b then _ else _) => destruct b end ]. }
  intros text_report.
  apply keeps_gis_bind; [|intros _; apply keeps_gis_arc_print].
  apply keeps_gis_for_each. intros line.
  apply keeps_gis_bind; [apply keeps_gis_arc_print|]. intros _.
  destruct text_report; [apply keeps_gis_file_write | apply keeps_gis_ret].
Qed.

Lemma handlers_keep_gis (body : Py (world gis) unit) w :
  w_gis (try_except_ExecuteError_Exception body
           (λ w, arc_print (arcpy_GetMessages E (w_gis w) 2) false w)
           (λ e, a ← lift (args_0 e); arc_print (py_str E a) false) w).1
  = w_gis (body w).1.
Proof.
  unfold try_except_ExecuteError_Exception.
  destruct (body w) as [w1 [[]|e]]; [done|].
  destruct (is_ExecuteError e); [done|].
  destruct (is_Exception e); [|done].
  unfold mbind, Py_bind, lift, args_0. by destruct (exc_args e).
Qed.

(** The prediction join is never undone: once the predictions are joined
    onto the table and the report is built, the table stays as the join
    left it, whether the output stage completes or raises. *)
Theorem join_is_not_rolled_back globals in_fc rt dv ivs alpha normalize output_dir w w1 m
    report :
  fit_and_join E globals in_fc rt dv ivs alpha normalize w = (w1, Return (m, report)) →
  w_gis (feature_class_sklearn_regression E globals in_fc rt dv ivs alpha normalize
           output_dir w).1 = w_gis w1.
Proof.
  intros Hfit. unfold feature_class_sklearn_regression. rewrite handlers_keep_gis.
  unfold feature_class_sklearn_regression_try.
  rewrite (bind_Return _ _ _ _ _ Hfit). cbv beta iota zeta.
  apply keeps_gis_outputs.
Qed.

Lemma rkg_bind_l {A B} (c : Py (world gis) A) (k : A → Py (world gis) B) :
  raises_keeping_gis c → raises_keeping_gis (c ≫= k).
Proof.
  intros Hc w. destruct (Hc w) as [Hr Hg]. unfold mbind, Py_bind.
  by destruct (c w) as [w1 [a|e]].
Qed.

Lemma rkg_bind_r {A B} (c : Py (world gis) A) (k : A → Py (world gis) B) :
  keeps_gis c → (∀ a, raises_keeping_gis (k a)) → raises_keeping_gis (c ≫= k).
Proof.
  intros Hc Hk w. specialize (Hc w). unfold mbind, Py_bind.
  destruct (c w) as [w1 [a|e]]; simpl in *; [|done].
  destruct (Hk a w1) as [? ->]. done.
Qed.

Lemma fit_and_join_no_class globals in_fc rt dv ivs alpha normalize :
  (∀ md cls, globals !! "linear_model" = Some md → mod_dict md !! rt ≠ Some (AClass cls)) →
  raises_keeping_gis (fit_and_join E globals in_fc rt dv ivs alpha normalize).
Proof.
  intros Hno. unfold fit_and_join.
  do 7 (apply rkg_bind_r;
        [first [apply keeps_gis_arcpy_read | apply keeps_gis_arc_print | apply keeps_gis_lift]
        |intros ?; cbv zeta]).
  intros w.
  pose proof (keeps_gis_get_model globals rt "linear_model" alpha normalize w) as Hgis.
  destruct (get_model E globals rt "linear_model" alpha normalize w)
    as [w1 [[m|class_name text]|e]] eqn:Hrun; simpl in Hgis.
  - destruct (get_model_Instance_inv _ _ _ _ _ _ _ _ _ Hrun) as (md & cls & Hg & Hn & _).
    by destruct (Hno md cls).
  - rewrite (bind_Return _ _ _ _ _ Hrun), <- Hgis.
    refine (rkg_bind_r _ _ (keeps_gis_arc_print _ _) _ w1). intros _.
    apply rkg_bind_l. by intros w2.
  - by rewrite (bind_Raise _ _ _ _ _ Hrun).
Qed.

Lemma orchestrator_no_class globals in_fc rt dv ivs alpha normalize output_dir w :
  (∀ md cls, globals !! "linear_model" = Some md → mod_dict md !! rt ≠ Some (AClass cls)) →
  w_gis (feature_class_sklearn_regression E globals in_fc rt dv ivs alpha normalize
           output_dir w).1 = w_gis w
  ∧ w_fs (feature_class_sklearn_regression E globals in_fc rt dv ivs alpha normalize
            output_dir w).1 = w_fs w.
Proof.
  intros Hno.
  destruct (fit_and_join_no_class globals in_fc rt dv ivs alpha normalize Hno w)
    as [Hraised Hgis].
  unfold feature_class_sklearn_regression. rewrite handlers_keep_gis, handlers_keep_fs.
  unfold feature_class_sklearn_regression_try.
  destruct (bind_raised (fit_and_join E globals in_fc rt dv ivs alpha normalize)
    (λ fitted,
       let '(regression_model, regession_report) := fitted in
       valid_output_file_directory ← os_path_isdir output_dir;
       text_report ← (if valid_output_file_directory : bool
                      then handle ← open_outputs E regression_model rt output_dir;
                           mret (Some handle)
                      else mret None);
       emit_report regession_report text_report;;
       arc_print "Script Completed Successfully." true) w Hraised) as (e & _ & ->).
  split; [exact Hgis | apply keeps_fs_fit_and_join].
Qed.

(** Without an estimator class there is no join and no file: when the
    regression type does not name a class of a bound [linear_model] (the
    module is unbound, the name is unbound, or it names something that is
    not a class), the run ends with the table and the filesystem exactly as
    it found them. *)
Theorem no_model_no_join globals in_fc rt dv ivs alpha normalize output_dir w :
  (∀ md cls, globals !! "linear_model" = Some md → mod_dict md !! rt ≠ Some (AClass cls)) →
  w_gis (feature_class_sklearn_regression E globals in_fc rt dv ivs alpha normalize
           output_dir w).1 = w_gis w
  ∧ w_fs (feature_class_sklearn_regression E globals in_fc rt dv ivs alpha normalize
            output_dir w).1 = w_fs w.
Proof. apply orchestrator_no_class. Qed.

(** No directory, no file: when the output directory is absent or names no
    directory at the start of the run, the filesystem at the end of the run
    is the one at its start, however the run ends. *)
Theorem no_directory_no_files globals in_fc rt dv ivs alpha normalize output_dir w :
  (∀ d, output_dir = Some d → d ∉ fs_dirs (w_fs w)) →
  w_fs (feature_class_sklearn_regression E globals in_fc rt dv ivs alpha normalize
          output_dir w).1 = w_fs w.
Proof.
  intros Hdir. unfold feature_class_sklearn_regression. rewrite handlers_keep_fs.
  unfold feature_class_sklearn_regression_try.
  pose proof (keeps_fs_fit_and_join E globals in_fc rt dv ivs alpha normalize w) as Hfs.
  destruct (fit_and_join E globals in_fc rt dv ivs alpha normalize w)
    as [w1 [[m report]|e]] eqn:Hfit; simpl in Hfs.
  - rewrite (bind_Return _ _ _ _ _ Hfit). cbv beta iota zeta.
    destruct output_dir as [d|]; [|done].
    unfold mbind at 1 2, Py_bind, os_path_isdir.
    rewrite bool_decide_eq_false_2 by (rewrite Hfs; by apply Hdir).
    unfold mret at 1, Py_ret. unfold mbind, Py_bind. by rewrite emit_report_None.
  - by rewrite (bind_Raise _ _ _ _ _ Hfit).
Qed.

(** ** What gets out *)


(** ** What get_model hands on *)

Lemma regression_summary_unfitted m y yhat names X :
  coef_ m = None →
  ∃ e, regression_summary E m y yhat names X = Raise e ∧ exc_type e = AttributeError.
Proof.
  intros Hc.
  unfold regression_summary, arc_tool_report, regression_summary_body,
    regression_summary_frame, mbind, Py_bind, lift, list_append, getattr_coef_.
  rewrite Hc. simpl. eauto.
Qed.

(** No failure of [set_params] ever makes [get_model] raise: it raises
    exactly when the module is unbound, the attribute lookup fails, or the
    call of the attribute raises.  An estimator that it returns is
    unfitted, and handing that to [regression_summary] without a fit in
    between raises an AttributeError. *)
Theorem get_model_raises_only_before_set_params globals rt module alpha normalize w :
  (raised (get_model E globals rt module alpha normalize w).2
   ↔ ¬ ∃ md a o, globals !! module = Some md ∧ getattr E md rt = Return a
                 ∧ call a = Return o)
  ∧ ∀ w' m, get_model E globals rt module alpha normalize w = (w', Return (Instance m)) →
      coef_ m = None ∧ intercept_ m = None
      ∧ ∀ y yhat names X, ∃ e,
          regression_summary E m y yhat names X = Raise e ∧ exc_type e = AttributeError.
Proof.
  split; [split|].
  - intros Hraised (md & a & o & Hg & Ha & Ho). revert Hraised.
    rewrite (get_model_bound_module _ _ _ _ _ _ _ _ Hg), Ha, Ho. simpl.
    destruct o; [by rewrite set_params_statements
                | by rewrite set_params_statements_other].
  - intros Hno.
    destruct (globals !! module) as [md|] eqn:Hg.
    2: { by rewrite get_model_unbound_module. }
    rewrite (get_model_bound_module _ _ _ _ _ _ _ _ Hg).
    destruct (getattr E md rt) as [a|] eqn:Ha; [|done].
    destruct (call a) as [o|] eqn:Ho; [|done].
    destruct Hno. eauto 10.
  - intros w' m Hrun.
    destruct (get_model_Instance_inv _ _ _ _ _ _ _ _ _ Hrun)
      as (md & cls & _ & _ & _ & Hc & Hi).
    split; [done|]. split; [done|]. intros. by apply regression_summary_unfitted.
Qed.

(** ** What reaches the output stage *)

Lemma regression_summary_length m y yhat names X lines :
  regression_summary E m y yhat names X = Return lines →
  9 ≤ length lines ≤ 12.
Proof.
  intros Hr.
  destruct (regression_summary_Return_inv _ _ _ _ _ _ _ Hr)
    as (cs & i & r2 & mse & mae & medae & Hc & Hi & H1 & H2 & H3 & H4).
  rewrite (regression_summary_fitted _ _ _ _ _ _ _ _ _ _ _ _ Hc Hi H1 H2 H3 H4) in Hr.
  injection Hr as <-. simpl. rewrite regressor_scores_cases.
  destruct (shape0 X); [|simpl; lia]. destruct (shape0 y); [|simpl; lia].
  case_decide; [|simpl; lia].
  destruct (f_regression E X y) as [[]|]; simpl; lia.
Qed.

(** When the orchestrator gets as far as its output stage, the regression
    type named a class of [linear_model], the model handed on is an
    instance of that class and is fitted (coefficients and intercept are
    there), the report has between nine and twelve lines, and nothing has
    been written to the filesystem yet. *)
Theorem outputs_get_a_fitted_model globals in_fc rt dv ivs alpha normalize w w1 m report :
  fit_and_join E globals in_fc rt dv ivs alpha normalize w = (w1, Return (m, report)) →
  (∃ md cls, globals !! "linear_model" = Some md ∧ mod_dict md !! rt = Some (AClass cls)
             ∧ est_class m = cls_name cls)
  ∧ is_Some (coef_ m) ∧ is_Some (intercept_ m)
  ∧ 9 ≤ length report ≤ 12
  ∧ w_fs w1 = w_fs w.
Proof.
  intros Hfit.
  pose proof (keeps_fs_fit_and_join E globals in_fc rt dv ivs alpha normalize w) as Hfs.
  rewrite Hfit in Hfs. simpl in Hfs.
  destruct (fit_and_join_Return_inv _ _ _ _ _ _ _ _ _ _ _ _ Hfit)
    as (md & cls & y & yhat & X & Hg & Hn & Hcls & Hc & Hi & Hsum).
  pose proof (regression_summary_length _ _ _ _ _ _ Hsum) as Hlen.
  repeat split; eauto; lia.
Qed.

(** ** The defaults of regression_summary *)

(** Called with its three required arguments only, so with no names and
    with the empty array for the independent values, on a dependent array
    that has rows and a model that has coefficients, [regression_summary]
    returns the nine leading lines and nothing else, the coefficient line
    holding the printed vector. *)
Theorem regression_summary_defaults m y yhat cs i r2 mse mae medae :
  coef_ m = Some cs → cs ≠ [] → intercept_ m = Some i →
  r2_score E y yhat = Return r2 → mean_squared_error E y yhat = Return mse →
  mean_absolute_error E y yhat = Return mae → median_absolute_error E y yhat = Return medae →
  shape0 y ≠ Return 0 →
  regression_summary E m y yhat [] (NdArray [0] [])
  = Return [ "REGRESSION MODEL: " +:+ sk_str E m;
             "MODEL COEFFICENTS";
             "  Regression Coefficents:  " +:+ str_vector E cs;
             "  Regression Intercept:    " +:+ str_float E i;
             "MODEL EVALUATION";
             "  Model Coefficent of Determination: " +:+ str_float E r2;
             "  Model Mean Squared Error:          " +:+ str_float E mse;
             "  Model Mean Absolute Error:         " +:+ str_float E mae;
             "  Model Median Absolute Error:       " +:+ str_float E medae ].
Proof.
  intros Hc Hcs Hi H1 H2 H3 H4 Hy.
  rewrite (regression_summary_fitted _ _ _ _ _ _ _ _ _ _ _ _ Hc Hi H1 H2 H3 H4).
  rewrite regressor_scores_cases. simpl.
  destruct (decide (0 = length cs)) as [Hlen|_].
  { by destruct cs. }
  destruct (shape0 y) as [n|]; [|done].
  case_decide; [by subst n | done].
Qed.

(** ** The command-line entry *)

(** Run as a script tool, the orchestrator is always given a text for the
    output directory.  When that text names no directory (a blank
    parameter, say), nothing is written, and a run whose table can be
    read, fitted and joined logs the report and completes. *)
Theorem main_without_directory T globals w :
  GetParameterAsText T 6 ∉ fs_dirs (w_fs w) →
  w_fs (main E T globals w).1 = w_fs w
  ∧ ∀ w1 m report,
      fit_and_join E globals (GetParameterAsText T 0) (GetParameterAsText T 1)
        (GetParameterAsText T 2) (split semicolon (GetParameterAsText T 3))
        (GetParameter T 4) (GetParameter T 5) w = (w1, Return (m, report)) →
      main E T globals w
      = (World (w_gis w1) (w_fs w)
           (w_messages w1 ++ report ++ ["Script Completed Successfully."]) (w_stdout w1),
         Return tt).
Proof.
  intros Hdir.
  pose proof (keeps_fs_fit_and_join E globals (GetParameterAsText T 0)
                (GetParameterAsText T 1) (GetParameterAsText T 2)
                (split semicolon (GetParameterAsText T 3)) (GetParameter T 4)
                (GetParameter T 5) w) as Hfs.
  unfold main. cbv zeta.
  unfold feature_class_sklearn_regression.
  split.
  - rewrite handlers_keep_fs. unfold feature_class_sklearn_regression_try.
    destruct (fit_and_join _ _ _ _ _ _ _ _ w) as [w1 [[m report]|e]] eqn:Hfit;
      simpl in Hfs.
    + rewrite (bind_Return _ _ _ _ _ Hfit). cbv beta iota zeta.
      unfold mbind at 1 2, Py_bind, os_path_isdir.
      rewrite bool_decide_eq_false_2 by (by rewrite Hfs).
      unfold mret at 1, Py_ret. unfold mbind, Py_bind. by rewrite emit_report_None.
    + by rewrite (bind_Raise _ _ _ _ _ Hfit).
  - intros w1 m report Hfit. rewrite Hfit in Hfs. simpl in Hfs.
    unfold try_except_ExecuteError_Exception, feature_class_sklearn_regression_try.
    rewrite (bind_Return _ _ _ _ _ Hfit). cbv beta iota zeta.
    unfold mbind at 1 2, Py_bind, os_path_isdir.
    rewrite bool_decide_eq_false_2 by (by rewrite Hfs).
    unfold mret at 1, Py_ret. unfold mbind, Py_bind. rewrite emit_report_None.
    unfold arc_print. simpl. by rewrite <- app_assoc, Hfs.
Qed.

(** ** Loading sklearn *)

Lemma not_imported name :
  name ∉ sklearn_imports.*2 →
  "linear_model" ≠ name ∧ "metrics" ≠ name ∧ "feature_selection" ≠ name
  ∧ "joblib" ≠ name ∧ "StandardScaler" ≠ name.
Proof.
  intros Hname. repeat split; intros <-; apply Hname; simpl; repeat constructor.
Qed.

(** Loading never fails: the guarded import block returns whatever the
    installation holds.  It logs nothing when all five imports succeed and
    the one error message otherwise, and it binds no name besides the five
    it imports. *)
Theorem load_sklearn_never_raises (import_from : string → string → outcome pymodule)
    (g : gmap string pymodule) w :
  ∃ g' logged,
    load_sklearn import_from (g, w)
    = ((g', World (w_gis w) (w_fs w) (w_messages w ++ logged) (w_stdout w)), Return tt)
    ∧ (logged = [] ∨ logged = [sklearn_missing])
    ∧ (logged = [] ↔ ∀ package name, (package, name) ∈ sklearn_imports →
                       ∃ obj, import_from package name = Return obj)
    ∧ ∀ name, name ∉ sklearn_imports.*2 → g' !! name = g !! name.
Proof.
  unfold load_sklearn, try_except_all, mbind, Py_bind, import_stmt, on_world, AddError.
  fold sklearn_missing.
  destruct (import_from "sklearn" "linear_model") as [m1|e1] eqn:H1;
    [destruct (import_from "sklearn" "metrics") as [m2|e2] eqn:H2;
      [destruct (import_from "sklearn" "feature_selection") as [m3|e3] eqn:H3;
        [destruct (import_from "sklearn.externals" "joblib") as [m4|e4] eqn:H4;
          [destruct (import_from "sklearn.preprocessing" "StandardScaler")
             as [m5|e5] eqn:H5|]|]|]|].
  1: { eexists _, []. rewrite app_nil_r. split; [by destruct w|].
       split; [by left|]. split.
       - split; [|done]. intros _ package name Hin. unfold sklearn_imports in Hin.
         repeat (apply elem_of_cons in Hin as [[= -> ->]|Hin]; [eauto|]).
         by apply elem_of_nil in Hin.
       - intros name (? & ? & ? & ? & ?)%not_imported.
         by rewrite !lookup_insert_ne. }
  all: eexists _, [sklearn_missing]; (split; [done|]); (split; [by right|]); split.
  all: try (intros name (? & ? & ? & ? & ?)%not_imported; by rewrite ?lookup_insert_ne).
  all: split; [done|]; intros Hall.
  - destruct (Hall "sklearn.preprocessing" "StandardScaler") as [? ?];
      [unfold sklearn_imports; repeat constructor | congruence].
  - destruct (Hall "sklearn.externals" "joblib") as [? ?];
      [unfold sklearn_imports; repeat constructor | congruence].
  - destruct (Hall "sklearn" "feature_selection") as [? ?];
      [unfold sklearn_imports; repeat constructor | congruence].
  - destruct (Hall "sklearn" "metrics") as [? ?];
      [unfold sklearn_imports; repeat constructor | congruence].
  - destruct (Hall "sklearn" "linear_model") as [? ?];
      [unfold sklearn_imports; repeat constructor | congruence].
Qed.

(** The names imported before the first import that fails stay bound, and
    the others keep whatever binding they had: when the import at position
    [k] of the block raises after the earlier ones returned, the globals
    hold each earlier name bound to what was imported, every other name as
    before, and the one error message has been logged. *)
Theorem load_sklearn_partial (import_from : string → string → outcome pymodule)
    (g : gmap string pymodule) w k package name e :
  sklearn_imports !! k = Some (package, name) →
  import_from package name = Raise e →
  (∀ j p n, j < k → sklearn_imports !! j = Some (p, n) →
            ∃ obj, import_from p n = Return obj) →
  ∃ g',
    load_sklearn import_from (g, w)
    = ((g', World (w_gis w) (w_fs w) (w_messages w ++ [sklearn_missing]) (w_stdout w)),
       Return tt)
    ∧ (∀ j p n obj, j < k → sklearn_imports !! j = Some (p, n) →
                    import_from p n = Return obj → g' !! n = Some obj)
    ∧ (∀ n, (∀ j p, j < k → sklearn_imports !! j ≠ Some (p, n)) → g' !! n = g !! n).
Proof.
  intros Hk Hraise Hbefore.
  unfold load_sklearn, try_except_all, mbind, Py_bind, import_stmt, on_world, AddError.
  fold sklearn_missing.
  destruct k as [|[|[|[|[|k]]]]]; simplify_eq/=.
  - rewrite Hraise. eexists. split; [done|]. split; [intros; lia | done].
  - destruct (Hbefore 0 _ _ ltac:(lia) eq_refl) as [m1 H1]. rewrite H1, Hraise.
    eexists. split; [done|]. split.
    + intros [|j] p n obj Hj Hl Hobj; simplify_eq/=; [|lia].
      rewrite lookup_insert_eq. congruence.
    + intros n Hn. rewrite lookup_insert_ne; [done|].
      intros <-. by apply (Hn 0 "sklearn" ltac:(lia)).
  - destruct (Hbefore 0 _ _ ltac:(lia) eq_refl) as [m1 H1].
    destruct (Hbefore 1 _ _ ltac:(lia) eq_refl) as [m2 H2]. rewrite H1, H2, Hraise.
    eexists. split; [done|]. split.
    + intros [|[|j]] p n obj Hj Hl Hobj; simplify_eq/=; [| |lia].
      * rewrite lookup_insert_ne, lookup_insert_eq by done. congruence.
      * rewrite lookup_insert_eq. congruence.
    + intros n Hn. rewrite !lookup_insert_ne; [done| |].
      * intros <-. by apply (Hn 0 "sklearn" ltac:(lia)).
      * intros <-. by apply (Hn 1 "sklearn" ltac:(lia)).
  - destruct (Hbefore 0 _ _ ltac:(lia) eq_refl) as [m1 H1].
    destruct (Hbefore 1 _ _ ltac:(lia) eq_refl) as [m2 H2].
    destruct (Hbefore 2 _ _ ltac:(lia) eq_refl) as [m3 H3].
    rewrite H1, H2, H3, Hraise.
    eexists. split; [done|]. split.
    + intros [|[|[|j]]] p n obj Hj Hl Hobj; simplify_eq/=; [| | |lia].
      * rewrite !lookup_insert_ne, lookup_insert_eq by done. congruence.
      * rewrite lookup_insert_ne, lookup_insert_eq by done. congruence.
      * rewrite lookup_insert_eq. congruence.
    + intros n Hn. rewrite !lookup_insert_ne; [done| | |].
      * intros <-. by apply (Hn 0 "sklearn" ltac:(lia)).
      * intros <-. by apply (Hn 1 "sklearn" ltac:(lia)).
      * intros <-. by apply (Hn 2 "sklearn" ltac:(lia)).
  - destruct (Hbefore 0 _ _ ltac:(lia) eq_refl) as [m1 H1].
    destruct (Hbefore 1 _ _ ltac:(lia) eq_refl) as [m2 H2].
    destruct (Hbefore 2 _ _ ltac:(lia) eq_refl) as [m3 H3].
    destruct (Hbefore 3 _ _ ltac:(lia) eq_refl) as [m4 H4].
    rewrite H1, H2, H3, H4, Hraise.
    eexists. split; [done|]. split.
    + intros [|[|[|[|j]]]] p n obj Hj Hl Hobj; simplify_eq/=; [| | | |lia].
      * rewrite !lookup_insert_ne, lookup_insert_eq by done. congruence.
      * rewrite !lookup_insert_ne, lookup_insert_eq by done. congruence.
      * rewrite lookup_insert_ne, lookup_insert_eq by done. congruence.
      * rewrite lookup_insert_eq. congruence.
    + intros n Hn. rewrite !lookup_insert_ne; [done| | | |].
      * intros <-. by apply (Hn 0 "sklearn" ltac:(lia)).
      * intros <-. by apply (Hn 1 "sklearn" ltac:(lia)).
      * intros <-. by apply (Hn 2 "sklearn" ltac:(lia)).
      * intros <-. by apply (Hn 3 "sklearn.externals" ltac:(lia)).
Qed.

(** Without [linear_model] no run gets anywhere: when the first import of
    the block fails and the name was not bound before, the globals that
    loading leaves make [get_model] raise the KeyError of the lookup for
    every regression type, and every run of the orchestrator ends with the
    table and the filesystem as it found them. *)
Theorem missing_linear_model_stops_every_run
    (import_from : string → string → outcome pymodule) (g : gmap string pymodule) w0 e
    in_fc rt dv ivs alpha normalize output_dir w :
  import_from "sklearn" "linear_model" = Raise e →
  g !! "linear_model" = None →
  let globals := (load_sklearn import_from (g, w0)).1.1 in
  get_model E globals rt "linear_model" alpha normalize w
  = (w, Raise (Exn KeyError [PyStr "linear_model"]))
  ∧ w_gis (feature_class_sklearn_regression E globals in_fc rt dv ivs alpha normalize
             output_dir w).1 = w_gis w
  ∧ w_fs (feature_class_sklearn_regression E globals in_fc rt dv ivs alpha normalize
            output_dir w).1 = w_fs w.
Proof.
  intros Himp Hg globals.
  assert (globals = g) as ->.
  { subst globals. unfold load_sklearn, try_except_all, mbind, Py_bind, import_stmt.
    by rewrite Himp. }
  split; [by apply get_model_unbound_module|].
  apply orchestrator_no_class. intros md cls. by rewrite Hg.
Qed.

End EntryProperties.

(** * The properties on concrete runs *)

Section Runs.

Import Demo.

(** A decidable proposition about the test environment, settled by running
    its decision procedure. *)
Ltac decide_by_running := refine (bool_decide_unpack _ _); vm_compute; exact I.

Lemma run_fit_eq disk_full :
  fit_and_join (env disk_full false) globals "parcels" "LinearRegression" "y" ["x"]
    (PyFloat 1) (PyBool false) w0
  = (World ["NPIndexJoin"; "PredictedValues"] fs0
       [ "Converting 'parcels' feature class fields to numpy arrays.";
         "Using input feature class and selected variables to establish LinearRegression Regression Model.";
         "Fitting LinearRegression() model to data.";
         "Extending Prediction Fields to Output Feature Class." ]
       ["Did not set alpha in model..."],
     Return (fitted, report)).
Proof. destruct disk_full; vm_compute; reflexivity. Defined.


Lemma get_model_best_effort_witness :
  globals !! "linear_model" = Some linear_model
  ∧ mod_dict linear_model !! "LinearRegression" = Some (AClass LinearRegression)
  ∧ ∃ w', get_model (env false false) globals "LinearRegression" "linear_model"
            (PyFloat 1) (PyBool true) w0
          = (w', Return (Instance (Estimator "LinearRegression"
                           (<["normalize" := PyBool true]> (cls_defaults LinearRegression))
                           None None)))
          ∧ w_stdout w' = ["Did not set alpha in model..."].
Proof.
  split; [reflexivity|]. split; [reflexivity|].
  destruct (get_model_best_effort (env false false) globals linear_model LinearRegression
              "LinearRegression" "linear_model" (PyFloat 1) (PyBool true) w0
              eq_refl eq_refl) as (w' & Hrun & _ & Hout & _).
  exists w'. split; [exact Hrun | exact Hout].
Defined.

Lemma unknown_model_raises_and_writes_nothing_witness :
  globals !! "linear_model" = Some linear_model
  ∧ mod_dict linear_model !! "NotAModel" = None
  ∧ module_type_attr (env false false) linear_model "NotAModel" = None
  ∧ (∃ w', get_model (env false false) globals "NotAModel" "linear_model"
             (PyFloat 1) (PyBool false) w0
           = (w', Raise (Exn AttributeError
                [PyStr "module 'sklearn.linear_model' has no attribute 'NotAModel'"])))
  ∧ w_fs (feature_class_sklearn_regression (env false false) globals "parcels" "NotAModel"
            "y" ["x"] (PyFloat 1) (PyBool false) (Some "C:/out") w0).1 = fs0.
Proof.
  split; [reflexivity|]. split; [reflexivity|]. split; [reflexivity|].
  destruct (unknown_model_raises_and_writes_nothing (env false false) globals linear_model
              "parcels" "NotAModel" "y" ["x"] (PyFloat 1) (PyBool false) (Some "C:/out") w0
              eq_refl eq_refl) as [Hraise Hfs].
  split; [exact (Hraise eq_refl) | exact Hfs].
Defined.

(** C5, refuted as stated.  The name [__repr__] is not in the namespace of
    [linear_model], and yet the lookup of line 56 does not fail: [getattr]
    finds the method that every module has from its type, the call returns
    a text, both [set_params] calls fail on it and are swallowed, and
    [get_model] returns the text. *)
Lemma unknown_model_raises_and_writes_nothing_counterexample :
  globals !! "linear_model" = Some linear_model
  ∧ mod_dict linear_model !! "__repr__" = None
  ∧ get_model (env false false) globals "__repr__" "linear_model" (PyFloat 1) (PyBool false)
      w0
    = (World [] fs0
         ["Using input feature class and selected variables to establish __repr__ Regression Model."]
         ["Did not set alpha in model..."; "Did not set normalize in model..."],
       Return (Other "str" "<module 'sklearn.linear_model'>")).
Proof. repeat split; vm_compute; reflexivity. Qed.

Lemma get_model_resolves_through_globals_witness :
  globals !! "svm" = None
  ∧ get_model (env false false) globals "SVR" "svm" (PyFloat 1) (PyBool false) w0
    = (w0, Raise (Exn KeyError [PyStr "svm"]))
  ∧ (fit_and_join (env false false) globals "parcels" "LinearRegression" "y" ["x"]
       (PyFloat 1) (PyBool false) w0).2 = Return (fitted, report)
  ∧ ∃ md cls, globals !! "linear_model" = Some md
              ∧ mod_dict md !! "LinearRegression" = Some (AClass cls)
              ∧ est_class fitted = cls_name cls.
Proof.
  split; [reflexivity|]. split; [|split].
  - exact (proj1 (get_model_resolves_through_globals (env false false) globals "svm" "SVR"
                    (PyFloat 1) (PyBool false) w0) eq_refl).
  - by rewrite (run_fit_eq false).
  - exact (proj2 (proj2 (proj2 (get_model_resolves_through_globals (env false false) globals
                                  "linear_model" "LinearRegression" (PyFloat 1)
                                  (PyBool false) w0)))
             "parcels" "y" ["x"] _ fitted report (run_fit_eq false)).
Defined.

Lemma metrics_of_run :
  coef_ fitted = Some [1%float] ∧ intercept_ fitted = Some 0%float
  ∧ r2_score (env false false) y y = Return 1%float
  ∧ mean_squared_error (env false false) y y = Return 0%float
  ∧ mean_absolute_error (env false false) y y = Return 0%float
  ∧ median_absolute_error (env false false) y y = Return 0%float.
Proof. repeat split; reflexivity. Defined.

Lemma regressor_scores_block_witness :
  (coef_ fitted = Some [1%float] ∧ intercept_ fitted = Some 0%float
   ∧ r2_score (env false false) y y = Return 1%float
   ∧ mean_squared_error (env false false) y y = Return 0%float
   ∧ mean_absolute_error (env false false) y y = Return 0%float
   ∧ median_absolute_error (env false false) y y = Return 0%float)
  ∧ ∃ head, length head = 9 ∧ ∀ X, ∃ block,
      regression_summary (env false false) fitted y y ["x"] X = Return (head ++ block)
      ∧ ((∃ f_line p_line, block = ["REGRESSOR SCORES"; f_line; p_line])
         ↔ (∃ n scores, shape0 X = Return n ∧ shape0 y = Return n
                        ∧ f_regression (env false false) X y = Return scores)).
Proof.
  split; [exact metrics_of_run|].
  destruct metrics_of_run as (Hc & Hi & H1 & H2 & H3 & H4).
  destruct (regressor_scores_block (env false false) fitted y y ["x"] _ _ _ _ _ _
              Hc Hi H1 H2 H3 H4) as (head & Hlen & Hblock).
  exists head. split; [exact Hlen|]. intros X0.
  destruct (Hblock X0) as (block & Hrun & Hiff & _).
  exists block. split; [exact Hrun | exact Hiff].
Defined.

(** C1, refuted as stated: a one-dimensional independent array has as many
    rows as the dependent array, so the test of line 102 passes and the
    header is appended; F-regression then refuses the array.  The call
    returns normally, but the block is neither appended nor omitted: the
    header is in the list, the score lines are not. *)
Lemma regressor_scores_block_counterexample :
  shape0 y = Return 4
  ∧ shape0 (column [1; 2; 3; 4]%float) = Return 4
  ∧ f_regression (env false false) (column [1; 2; 3; 4]%float) y
    = Raise (Exn ValueError [PyStr "Expected 2D array, got 1D array instead"])
  ∧ regression_summary (env false false) fitted y y ["x"] (column [1; 2; 3; 4]%float)
    = Return (take 9 report ++ ["REGRESSOR SCORES"]).
Proof. repeat split; vm_compute; reflexivity. Qed.

Lemma coefficient_line_witness :
  coef_ fitted_two = Some [2.00048828125; -0.5]%float
  ∧ ∃ lines, regression_summary (env false false) fitted_two y y ["a"; "b"] X_two
             = Return lines
      ∧ lines !! 2 = Some "  Regression Coefficents:  2.0 * a + -0.5 * b".
Proof.
  split; [reflexivity|].
  assert (∃ lines, regression_summary (env false false) fitted_two y y ["a"; "b"] X_two
                   = Return lines) as [lines Hrun]
    by (eexists; vm_compute; reflexivity).
  exists lines. split; [exact Hrun|].
  destruct (coefficient_line (env false false) fitted_two y y ["a"; "b"] X_two
              [2.00048828125; -0.5]%float lines eq_refl Hrun) as (line & Hline & Heq & _).
  destruct (Heq eq_refl) as (terms & -> & Hlen & Hk).
  pose proof (Hk 0 2.00048828125%float "a" eq_refl eq_refl) as H0.
  pose proof (Hk 1 (-0.5)%float "b" eq_refl eq_refl) as H1.
  destruct terms as [|t0 [|t1 [|t2 terms]]]; try discriminate Hlen.
  injection H0 as ->. injection H1 as ->. exact Hline.
Defined.

Lemma regression_summary_requires_fitted_witness :
  coef_ unfitted = None
  ∧ ∃ e, regression_summary (env false false) unfitted y y ["x"] X = Raise e
         ∧ exc_type e = AttributeError.
Proof.
  split; [reflexivity|].
  exact (proj1 (regression_summary_requires_fitted (env false false) unfitted y y ["x"] X)
           (or_introl eq_refl)).
Defined.

Lemma absent_output_dir_aborts_witness :
  (fit_and_join (env false false) globals "parcels" "LinearRegression" "y" ["x"]
     (PyFloat 1) (PyBool false) w0).2 = Return (fitted, report)
  ∧ feature_class_sklearn_regression (env false false) globals "parcels" "LinearRegression"
      "y" ["x"] (PyFloat 1) (PyBool false) None w0
    = (World ["NPIndexJoin"; "PredictedValues"] fs0
         [ "Converting 'parcels' feature class fields to numpy arrays.";
           "Using input feature class and selected variables to establish LinearRegression Regression Model.";
           "Fitting LinearRegression() model to data.";
           "Extending Prediction Fields to Output Feature Class.";
           "stat: path should be string, bytes, os.PathLike or integer, not NoneType" ]
         ["Did not set alpha in model..."],
       Return tt).
Proof.
  split; [by rewrite (run_fit_eq false)|].
  exact (absent_output_dir_aborts (env false false) globals "parcels" "LinearRegression"
           "y" ["x"] (PyFloat 1) (PyBool false) w0 _ fitted report (run_fit_eq false)).
Defined.

Lemma handlers_report_and_halt_witness :
  feature_class_sklearn_regression_try (env false false) globals "missing"
    "LinearRegression" "y" ["x"] (PyFloat 1) (PyBool false) (Some "C:/out") w0
  = (w0, Raise (Exn OSError [PyStr "missing does not exist"]))
  ∧ feature_class_sklearn_regression (env false false) globals "missing" "LinearRegression"
      "y" ["x"] (PyFloat 1) (PyBool false) (Some "C:/out") w0
    = (World [] fs0 ["missing does not exist"] [], Return tt)
  ∧ (feature_class_sklearn_regression_try (env false true) globals "parcels"
       "LinearRegression" "y" ["x"] (PyFloat 1) (PyBool false) (Some "C:/out") w0).2
    = Raise (Exn (BaseOnly "KeyboardInterrupt") [])
  ∧ feature_class_sklearn_regression (env false true) globals "parcels" "LinearRegression"
      "y" ["x"] (PyFloat 1) (PyBool false) (Some "C:/out") w0
    = (World [] fs0
         [ "Converting 'parcels' feature class fields to numpy arrays.";
           "Using input feature class and selected variables to establish LinearRegression Regression Model.";
           "Fitting LinearRegression() model to data." ]
         ["Did not set alpha in model..."],
       Raise (Exn (BaseOnly "KeyboardInterrupt") [])).
Proof.
  assert (feature_class_sklearn_regression_try (env false false) globals "missing"
            "LinearRegression" "y" ["x"] (PyFloat 1) (PyBool false) (Some "C:/out") w0
          = (w0, Raise (Exn OSError [PyStr "missing does not exist"]))) as Hbody
    by (vm_compute; reflexivity).
  assert (feature_class_sklearn_regression_try (env false true) globals "parcels"
            "LinearRegression" "y" ["x"] (PyFloat 1) (PyBool false) (Some "C:/out") w0
          = (World [] fs0
               [ "Converting 'parcels' feature class fields to numpy arrays.";
                 "Using input feature class and selected variables to establish LinearRegression Regression Model.";
                 "Fitting LinearRegression() model to data." ]
               ["Did not set alpha in model..."],
             Raise (Exn (BaseOnly "KeyboardInterrupt") []))) as Hinterrupt
    by (vm_compute; reflexivity).
  split; [exact Hbody|]. split; [|split].
  - exact (proj1 (proj2 (handlers_report_and_halt (env false false) globals "missing"
                           "LinearRegression" "y" ["x"] (PyFloat 1) (PyBool false)
                           (Some "C:/out") w0 w0 _ Hbody))
             eq_refl eq_refl (PyStr "missing does not exist") [] eq_refl).
  - by rewrite Hinterrupt.
  - exact (proj2 (proj2 (handlers_report_and_halt (env false true) globals "parcels"
                           "LinearRegression" "y" ["x"] (PyFloat 1) (PyBool false)
                           (Some "C:/out") w0 _ _ Hinterrupt))
             eq_refl).
Defined.

(** C4, refuted as stated.  A table too large for memory makes numpy raise
    a MemoryError without argument: the generic handler is entered, its
    [e.args[0]] raises an IndexError, and that exception leaves the
    function.  A KeyboardInterrupt during the fit is no Exception: neither
    handler takes it, and it leaves the function as it is. *)
Lemma handlers_report_and_halt_counterexample :
  (feature_class_sklearn_regression_try (env false false) globals "huge" "LinearRegression"
     "y" ["x"] (PyFloat 1) (PyBool false) (Some "C:/out") w0).2
  = Raise (Exn MemoryError [])
  ∧ (feature_class_sklearn_regression (env false false) globals "huge" "LinearRegression"
       "y" ["x"] (PyFloat 1) (PyBool false) (Some "C:/out") w0).2
    = Raise (Exn IndexError [PyStr "tuple index out of range"])
  ∧ (feature_class_sklearn_regression (env false true) globals "parcels" "LinearRegression"
       "y" ["x"] (PyFloat 1) (PyBool false) (Some "C:/out") w0).2
    = Raise (Exn (BaseOnly "KeyboardInterrupt") []).
Proof. repeat split; vm_compute; reflexivity. Qed.


Lemma invalid_output_dir_logs_report_witness :
  ("C:/nowhere" ∉ fs_dirs fs0)
  ∧ feature_class_sklearn_regression (env false false) globals "parcels" "LinearRegression"
      "y" ["x"] (PyFloat 1) (PyBool false) (Some "C:/nowhere") w0
    = (World ["NPIndexJoin"; "PredictedValues"] fs0
         ([ "Converting 'parcels' feature class fields to numpy arrays.";
            "Using input feature class and selected variables to establish LinearRegression Regression Model.";
            "Fitting LinearRegression() model to data.";
            "Extending Prediction Fields to Output Feature Class." ]
          ++ report ++ ["Script Completed Successfully."])
         ["Did not set alpha in model..."],
       Return tt).
Proof.
  assert ("C:/nowhere" ∉ fs_dirs fs0) as Hdir by decide_by_running.
  split; [exact Hdir|].
  exact (invalid_output_dir_logs_report (env false false) globals "parcels"
           "LinearRegression" "y" ["x"] (PyFloat 1) (PyBool false) "C:/nowhere" w0 _ fitted
           report (run_fit_eq false) Hdir).
Defined.


Lemma report_leading_lines_witness :
  (coef_ fitted = Some [1%float] ∧ intercept_ fitted = Some 0%float
   ∧ r2_score (env false false) y y = Return 1%float
   ∧ mean_squared_error (env false false) y y = Return 0%float
   ∧ mean_absolute_error (env false false) y y = Return 0%float
   ∧ median_absolute_error (env false false) y y = Return 0%float)
  ∧ ∃ coefficients scores,
      regression_summary (env false false) fitted y y ["x"] X
      = Return ([ "REGRESSION MODEL: LinearRegression()";
                  "MODEL COEFFICENTS";
                  "  Regression Coefficents:  " +:+ coefficients;
                  "  Regression Intercept:    0.0";
                  "MODEL EVALUATION";
                  "  Model Coefficent of Determination: 1.0";
                  "  Model Mean Squared Error:          0.0";
                  "  Model Mean Absolute Error:         0.0";
                  "  Model Median Absolute Error:       0.0" ] ++ scores)
      ∧ length scores ≤ 3.
Proof.
  split; [exact metrics_of_run|].
  destruct metrics_of_run as (Hc & Hi & H1 & H2 & H3 & H4).
  exact (report_leading_lines (env false false) fitted y y ["x"] X _ _ _ _ _ _
           Hc Hi H1 H2 H3 H4).
Defined.

End Runs.

(** * The properties of the rest of the script on concrete runs *)

Section EntryRuns.

Import Demo DemoTool.

Ltac decide_by_running := refine (bool_decide_unpack _ _); vm_compute; exact I.

Lemma split_join_names_witness :
  Forall (λ name, occurrences semicolon name = 0) ["POP2010"; "MED AGE"; "x"]
  ∧ split semicolon "POP2010;MED AGE;x" = ["POP2010"; "MED AGE"; "x"].
Proof.
  assert (Forall (λ name, occurrences semicolon name = 0) ["POP2010"; "MED AGE"; "x"])
    as Hall by (repeat constructor).
  split; [exact Hall|].
  exact (split_join_names semicolon ["POP2010"; "MED AGE"; "x"] ltac:(discriminate) Hall).
Defined.

Lemma join_is_not_rolled_back_witness :
  (feature_class_sklearn_regression (env true false) globals "parcels" "LinearRegression"
     "y" ["x"] (PyFloat 1) (PyBool false) (Some "C:/out") w0).2 = Return tt
  ∧ w_messages (feature_class_sklearn_regression (env true false) globals "parcels"
                  "LinearRegression" "y" ["x"] (PyFloat 1) (PyBool false)
                  (Some "C:/out") w0).1
    !! 5 = Some "28"
  ∧ w_gis (feature_class_sklearn_regression (env true false) globals "parcels"
             "LinearRegression" "y" ["x"] (PyFloat 1) (PyBool false) (Some "C:/out") w0).1
    = ["NPIndexJoin"; "PredictedValues"].
Proof.
  split; [vm_compute; reflexivity|]. split; [vm_compute; reflexivity|].
  exact (join_is_not_rolled_back (env true false) globals "parcels" "LinearRegression" "y"
           ["x"] (PyFloat 1) (PyBool false) (Some "C:/out") w0 _ fitted report
           (run_fit_eq true)).
Defined.

Lemma no_model_no_join_witness :
  mod_dict linear_model !! "lars_path"
  = Some (AOther (Exn TypeError
       [PyStr "lars_path() missing 2 required positional arguments: 'X' and 'y'"]))
  ∧ w_gis (feature_class_sklearn_regression (env false false) globals "parcels" "lars_path"
             "y" ["x"] (PyFloat 1) (PyBool false) (Some "C:/out") w0).1 = []
  ∧ w_fs (feature_class_sklearn_regression (env false false) globals "parcels" "lars_path"
            "y" ["x"] (PyFloat 1) (PyBool false) (Some "C:/out") w0).1 = fs0.
Proof.
  split; [reflexivity|].
  apply (no_model_no_join (env false false) globals "parcels" "lars_path" "y" ["x"]
           (PyFloat 1) (PyBool false) (Some "C:/out") w0).
  intros md cls Hg Hn. vm_compute in Hg. injection Hg as <-.
  vm_compute in Hn. discriminate Hn.
Defined.

Lemma no_directory_no_files_witness :
  w_fs (feature_class_sklearn_regression (env false false) globals "parcels"
          "LinearRegression" "y" ["x"] (PyFloat 1) (PyBool false) None w0).1 = fs0.
Proof.
  apply (no_directory_no_files (env false false) globals "parcels" "LinearRegression" "y"
           ["x"] (PyFloat 1) (PyBool false) None w0).
  intros d Hd. discriminate Hd.
Defined.


Lemma outputs_get_a_fitted_model_witness :
  (fit_and_join (env false false) globals "parcels" "LinearRegression" "y" ["x"]
     (PyFloat 1) (PyBool false) w0).2 = Return (fitted, report)
  ∧ (∃ md cls, globals !! "linear_model" = Some md
               ∧ mod_dict md !! "LinearRegression" = Some (AClass cls)
               ∧ est_class fitted = cls_name cls)
  ∧ is_Some (coef_ fitted) ∧ is_Some (intercept_ fitted)
  ∧ 9 ≤ length report ≤ 12.
Proof.
  split; [by rewrite (run_fit_eq false)|].
  destruct (outputs_get_a_fitted_model (env false false) globals "parcels"
              "LinearRegression" "y" ["x"] (PyFloat 1) (PyBool false) w0 _ fitted report
              (run_fit_eq false)) as (Hcls & Hc & Hi & Hlen & _).
  split; [exact Hcls|]. split; [exact Hc|]. split; [exact Hi | exact Hlen].
Defined.

Lemma regression_summary_defaults_witness :
  shape0 y = Return 4
  ∧ regression_summary (env false false) fitted y y [] (NdArray [0] [])
    = Return [ "REGRESSION MODEL: LinearRegression()";
               "MODEL COEFFICENTS";
               "  Regression Coefficents:  [1.0]";
               "  Regression Intercept:    0.0";
               "MODEL EVALUATION";
               "  Model Coefficent of Determination: 1.0";
               "  Model Mean Squared Error:          0.0";
               "  Model Mean Absolute Error:         0.0";
               "  Model Median Absolute Error:       0.0" ].
Proof.
  split; [reflexivity|].
  apply (regression_summary_defaults (env false false) fitted y y [1%float] 0%float
           1%float 0%float 0%float 0%float);
    try reflexivity; discriminate.
Defined.

Lemma main_without_directory_witness :
  ("" ∉ fs_dirs fs0)
  ∧ w_fs (main (env false false) parameters globals w0).1 = fs0
  ∧ main (env false false) parameters globals w0
    = (World ["NPIndexJoin"; "PredictedValues"] fs0
         ([ "Converting 'parcels' feature class fields to numpy arrays.";
            "Using input feature class and selected variables to establish LinearRegression Regression Model.";
            "Fitting LinearRegression() model to data.";
            "Extending Prediction Fields to Output Feature Class." ]
          ++ report ++ ["Script Completed Successfully."])
         ["Did not set alpha in model..."],
       Return tt).
Proof.
  assert ("" ∉ fs_dirs fs0) as Hdir by decide_by_running.
  split; [exact Hdir|].
  destruct (main_without_directory (env false false) parameters globals w0 Hdir)
    as [Hfs Hrun].
  split; [exact Hfs|].
  exact (Hrun _ fitted report (run_fit_eq false)).
Defined.

Lemma load_sklearn_partial_witness :
  sklearn_imports !! 3 = Some ("sklearn.externals", "joblib")
  ∧ ∃ g',
      load_sklearn import_from (∅, w0)
      = ((g', World [] fs0 [sklearn_missing] []), Return tt)
      ∧ g' !! "linear_model" = Some linear_model
      ∧ g' !! "joblib" = None
      ∧ g' !! "StandardScaler" = None.
Proof.
  split; [reflexivity|].
  destruct (load_sklearn_partial import_from ∅ w0 3 "sklearn.externals" "joblib"
              (Exn (OtherException "ImportError")
                 [PyStr "cannot import name 'joblib' from 'sklearn.externals'"])
              eq_refl eq_refl) as (g' & Hrun & Hbound & Hfree).
  - intros [|[|[|j]]] p n Hj Hl; [| | |lia]; injection Hl as <- <-; eexists; reflexivity.
  - exists g'. split; [exact Hrun|]. split.
    + exact (Hbound 0 "sklearn" "linear_model" linear_model ltac:(lia) eq_refl eq_refl).
    + split.
      * rewrite (Hfree "joblib"); [reflexivity|].
        intros [|[|[|j]]] p Hj Hl; [| | |lia]; discriminate Hl.
      * rewrite (Hfree "StandardScaler"); [reflexivity|].
        intros [|[|[|j]]] p Hj Hl; [| | |lia]; discriminate Hl.
Defined.

Lemma missing_linear_model_stops_every_run_witness :
  no_sklearn "sklearn" "linear_model"
  = Raise (Exn (OtherException "ImportError") [PyStr "No module named sklearn"])
  ∧ get_model (env false false) (load_sklearn no_sklearn (∅, w0)).1.1 "LinearRegression"
      "linear_model" (PyFloat 1) (PyBool false) w0
    = (w0, Raise (Exn KeyError [PyStr "linear_model"]))
  ∧ w_gis (feature_class_sklearn_regression (env false false)
             (load_sklearn no_sklearn (∅, w0)).1.1 "parcels" "LinearRegression" "y" ["x"]
             (PyFloat 1) (PyBool false) (Some "C:/out") w0).1 = []
  ∧ w_fs (feature_class_sklearn_regression (env false false)
            (load_sklearn no_sklearn (∅, w0)).1.1 "parcels" "LinearRegression" "y" ["x"]
            (PyFloat 1) (PyBool false) (Some "C:/out") w0).1 = fs0.
Proof.
  split; [reflexivity|].
  exact (missing_linear_model_stops_every_run (env false false) no_sklearn ∅ w0 _
           "parcels" "LinearRegression" "y" ["x"] (PyFloat 1) (PyBool false)
           (Some "C:/out") w0 eq_refl eq_refl).
Defined.

Lemma get_model_raises_only_before_set_params_witness :
  raised (get_model (env false false) globals "lars_path" "linear_model" (PyFloat 1)
            (PyBool false) w0).2
  ∧ ¬ raised (get_model (env false false) globals "__dir__" "linear_model" (PyFloat 1)
                (PyBool false) w0).2.
Proof.
  split.
  - apply (proj1 (get_model_raises_only_before_set_params (env false false) globals
                    "lars_path" "linear_model" (PyFloat 1) (PyBool false) w0)).
    intros (md & a & o & Hg & Ha & Ho).
    vm_compute in Hg. injection Hg as <-.
    vm_compute in Ha. injection Ha as <-. discriminate Ho.
  - intros Hraised.
    apply (proj1 (get_model_raises_only_before_set_params (env false false) globals
                    "__dir__" "linear_model" (PyFloat 1) (PyBool false) w0)) in Hraised.
    apply Hraised.
    exists linear_model, (ACallable "list" "['LinearRegression', 'Ridge']"),
      (Other "list" "['LinearRegression', 'Ridge']").
    repeat split; vm_compute; reflexivity.
Defined.

End EntryRuns.
